(** * Verification of the anomaly-detection utility scripts

    A shallow embedding of [src/datasets.py] (dataset registry, [get],
    [read]) and of [src/plot.py] ([roc_curve], [embed_umap] and the
    figures [histogram], [scatter], [plot_2d], [plot_3d]) together with
    the properties of their data-preparation contract.

    Python code that touches the file system is embedded in a state and
    exception monad over an explicit world: a map from paths to nodes and
    a trace of the effects performed.  Exceptions keep the effects that
    happened before they were raised, as in Python. *)

From Stdlib Require Import ZArith QArith Qround Qabs Lqa String Ascii List Lia.
From Stdlib Require Import DecimalString.
From stdpp Require Import base option list gmap strings sorting.

Local Open Scope Z_scope.
Local Open Scope string_scope.

(** ** Python runtime: exceptions, results, paths *)

Module Py.

Inductive exn : Type :=
| KeyError            (* LookupError: missing dictionary key *)
| IndexError          (* LookupError: index out of range *)
| ValueError
| TypeError
| ZeroDivisionError
| OSError.

(** [KeyError] and [IndexError] are the subclasses of [LookupError]. *)
Definition is_lookup_error (e : exn) : bool :=
  match e with
  | KeyError | IndexError => true
  | _ => false
  end.

Inductive result (A : Type) : Type :=
| Ok (a : A)
| Raise (e : exn).
Arguments Ok {A} a.
Arguments Raise {A} e.

(** State and exception monad over a world [W]. *)
Definition M (W A : Type) : Type := W -> result A * W.

Definition ret {W A} (a : A) : M W A := fun w => (Ok a, w).
Definition raise {W A} (e : exn) : M W A := fun w => (Raise e, w).
Definition bind {W A B} (c : M W A) (k : A -> M W B) : M W B :=
  fun w => match c w with
           | (Ok a, w') => k a w'
           | (Raise e, w') => (Raise e, w')
           end.
Definition lift {W A} (r : result A) : M W A := fun w => (r, w).

(** A Python dict written as a literal: later entries overwrite earlier
    ones with the same key. *)
Definition dict_literal {V} (items : list (string * V)) : gmap string V :=
  foldl (fun m kv => <[kv.1 := kv.2]> m) ∅ items.

(** [d[k]] *)
Definition dict_getitem {V} (d : gmap string V) (k : string) : result V :=
  match d !! k with
  | Some v => Ok v
  | None => Raise KeyError
  end.

(** [k in d] *)
Definition dict_contains {V} (d : gmap string V) (k : string) : bool :=
  bool_decide (is_Some (d !! k)).

(** [x in l] for a list of strings *)
Definition list_contains (l : list string) (x : string) : bool :=
  bool_decide (x ∈ l).

Definition starts_with_slash (s : string) : bool :=
  match s with
  | String c _ => bool_decide (c = "/"%char)
  | EmptyString => false
  end.

Fixpoint ends_with_slash (s : string) : bool :=
  match s with
  | EmptyString => false
  | String c EmptyString => bool_decide (c = "/"%char)
  | String _ s' => ends_with_slash s'
  end.

(** [os.path.join(a, b)] on POSIX: an absolute [b] discards [a]; a
    separator is added unless [a] is empty or already ends with one. *)
Definition os_path_join (a b : string) : string :=
  if starts_with_slash b then b
  else if bool_decide (a = "") || ends_with_slash a then a ++ b
  else a ++ "/" ++ b.

(** [str(n)] for a Python int. *)
Definition str_of_int (n : Z) : string :=
  NilZero.string_of_int (Z.to_int n).

End Py.

Export Py.

Declare Scope py_scope.
Delimit Scope py_scope with py.
Notation "'do' x <- c ; k" := (bind c (fun x => k))
  (at level 10, x name, c at level 100, k at level 200,
   format "'[v' 'do'  x  <-  c ; '/' k ']'") : py_scope.
Notation "'run' c ; k" := (bind c (fun _ => k))
  (at level 10, c at level 100, k at level 200,
   format "'[v' 'run'  c ; '/' k ']'") : py_scope.
Local Open Scope py_scope.

(** ** numpy arrays *)

Module Np.

Inductive dtype : Type := uint8 | int64 | float32 | float64.

(** An array is its element type, its shape and its elements in row-major
    order.  Elements are kept as rationals: binary64 values are idealised
    as exact rationals, integer arrays hold integral rationals. *)
Record ndarray : Type := mk_ndarray {
  arr_dtype : dtype;
  shape : list nat;
  flat : list Q
}.

Definition prod_shape (s : list nat) : nat := foldr Nat.mul 1%nat s.

(** The header of a stored array agrees with the number of elements. *)
Definition wf (a : ndarray) : bool :=
  bool_decide (length (flat a) = prod_shape (shape a)).

(** [int(q)]: truncation toward zero. *)
Definition py_int (q : Q) : Z :=
  if Qle_bool 0 q then Qfloor q else Qceiling q.

Definition wrap_uint8 (z : Z) : Z := z mod 256.
Definition wrap_int64 (z : Z) : Z := (z + 2 ^ 63) mod 2 ^ 64 - 2 ^ 63.

Section Cast.
(** Rounding of a rational to the nearest binary32 value. *)
Variable round_f32 : Q -> Q.

Definition cast (dt : dtype) (q : Q) : Q :=
  match dt with
  | uint8 => inject_Z (wrap_uint8 (py_int q))
  | int64 => inject_Z (wrap_int64 (py_int q))
  | float32 => round_f32 q
  | float64 => q
  end.

(** [np.asarray(a, dtype=dt)] *)
Definition asarray (a : ndarray) (dt : dtype) : ndarray :=
  {| arr_dtype := dt; shape := shape a; flat := map (cast dt) (flat a) |}.
End Cast.

(** [np.squeeze(a)]: every axis of length one is removed. *)
Definition squeeze (a : ndarray) : ndarray :=
  {| arr_dtype := arr_dtype a;
     shape := filter (fun d => d ≠ 1%nat) (shape a);
     flat := flat a |}.

(** [a.shape[0]] *)
Definition shape0 (a : ndarray) : result nat :=
  match shape a with
  | n :: _ => Ok n
  | [] => Raise IndexError
  end.

(** Length of the first axis, the number of rows. *)
Definition n_rows (a : ndarray) : nat := hd 0%nat (shape a).

(** Number of elements along the remaining axes of one row. *)
Definition row_size (a : ndarray) : nat := prod_shape (tail (shape a)).

(** Row [i] of an array with at least one axis. *)
Definition row (a : ndarray) (i : nat) : list Q :=
  take (row_size a) (drop (i * row_size a) (flat a)).

(** [a[samples]] for a list of non-negative integer indices: the rows are
    gathered along the first axis, an index past the end raises. *)
Definition take_rows (a : ndarray) (samples : list nat) : result ndarray :=
  match shape a with
  | [] => Raise IndexError
  | n :: rest =>
      if forallb (fun i => i <? n)%nat samples
      then Ok {| arr_dtype := arr_dtype a;
                 shape := length samples :: rest;
                 flat := concat (map (row a) samples) |}
      else Raise IndexError
  end.

(** Multi-indices of a shape in row-major order. *)
Fixpoint indices (s : list nat) : list (list nat) :=
  match s with
  | [] => [[]]
  | n :: rest => i ← seq 0 n; (fun t => i :: t) <$> indices rest
  end.

(** Row-major offset of a multi-index. *)
Fixpoint offset (s idx : list nat) : nat :=
  match s, idx with
  | n :: s', i :: idx' => (i * prod_shape s' + offset s' idx')%nat
  | _, _ => 0%nat
  end.

(** [a.T]: the axes are reversed. *)
Definition transpose (a : ndarray) : ndarray :=
  {| arr_dtype := arr_dtype a;
     shape := rev (shape a);
     flat := (fun idx => nth (offset (shape a) (rev idx)) (flat a) 0%Q)
               <$> indices (rev (shape a)) |}.

End Np.

Export Np.

(** ** [src/datasets.py] *)

Module Datasets.

Definition DATASET_LINKS_items : list (string * string) :=
  [ ("annthyroid", "https://www.dropbox.com/s/aifk51owxbogwav/annthyroid.mat?dl=0");
    ("arrhythmia", "https://www.dropbox.com/s/lmlwuspn1sey48r/arrhythmia.mat?dl=0");
    ("breastw", "https://www.dropbox.com/s/g3hlnucj71kfvq4/breastw.mat?dl=0");
    ("cardio", "https://www.dropbox.com/s/galg3ihvxklf0qi/cardio.mat?dl=0");
    ("cover", "https://www.dropbox.com/s/awx8iuzbu8dkxf1/cover.mat?dl=0");
    ("glass", "https://www.dropbox.com/s/iq3hjxw77gpbl7u/glass.mat?dl=0");
    ("http", "https://www.dropbox.com/s/iy9ucsifal754tp/http.mat?dl=0");
    ("ionosphere", "https://www.dropbox.com/s/lpn4z73fico4uup/ionosphere.mat?dl=0");
    ("lympho", "https://www.dropbox.com/s/ag469ssk0lmctco/lympho.mat?dl=0");
    ("mammography", "https://www.dropbox.com/s/tq2v4hhwyv17hlk/mammography.mat?dl=0");
    ("mnist", "https://www.dropbox.com/s/n3wurjt8v9qi6nc/mnist.mat?dl=0");
    ("musk", "https://www.dropbox.com/s/we6aqhb0m38i60t/musk.mat?dl=0");
    ("optdigits", "https://www.dropbox.com/s/w52ndgz5k75s514/optdigits.mat?dl=0");
    ("pendigits", "https://www.dropbox.com/s/1x8rzb4a0lia6t1/pendigits.mat?dl=0");
    ("pima", "https://www.dropbox.com/s/mvlwu7p0nyk2a2r/pima.mat?dl=0");
    ("satellite", "https://www.dropbox.com/s/dpzxp8jyr9h93k5/satellite.mat?dl=0");
    ("satimage-2", "https://www.dropbox.com/s/hckgvu9m6fs441p/satimage-2.mat?dl=0");
    ("shuttle", "https://www.dropbox.com/s/mk8ozgisimfn3dw/shuttle.mat?dl=0");
    ("smtp", "https://www.dropbox.com/s/dbv2u4830xri7og/smtp.mat?dl=0");
    ("thyroid", "https://www.dropbox.com/s/bih0e15a0fukftb/thyroid.mat?dl=0");
    ("vertebral", "https://www.dropbox.com/s/5kuqb387sgvwmrb/vertebral.mat?dl=0");
    ("vowels", "https://www.dropbox.com/s/pa26odoq6atq9vx/vowels.mat?dl=0");
    ("wbc", "https://www.dropbox.com/s/ebz9v9kdnvykzcb/wbc.mat?dl=0");
    ("wine", "https://www.dropbox.com/s/uvjaudt2uto7zal/wine.mat?dl=0") ].

Definition DATASET_LINKS : gmap string string :=
  dict_literal DATASET_LINKS_items.

Definition OTHER_DATASETS : list string :=
  [ "backdoor"; "campaign"; "celeba"; "census"; "donors"; "fraud";
    "thyroid-21" ].

Definition SHORT_NAMES_items : list (string * string) :=
  [ ("annthyroid", "ANNTH.");
    ("arrhythmia", "ARRH.");
    ("breastw", "BRE.W");
    ("cardio", "CARD.");
    ("cover", "COVER");
    ("glass", "GLASS");
    ("http", "HTTP");
    ("ionosphere", "IONO.");
    ("lympho", "LYMP.");
    ("mammography", "MAMMO.");
    ("mnist", "MNIST");
    ("musk", "MUSK");
    ("optdigits", "O.DIG.");
    ("pendigits", "P.DIG.");
    ("pima", "PIMA");
    ("satellite", "SATL.");
    ("satimage-2", "SAT.I-2");
    ("shuttle", "SHUTTLE");
    ("smtp", "SMTP.");
    ("thyroid", "THYR.");
    ("vertebral", "VERT.");
    ("vowels", "VOWELS");
    ("wbc", "WBC");
    ("wine", "WINE");
    ("backdoor", "BACKDOOR");
    ("campaign", "CAMPAIGN");
    ("celeba", "CELEBA");
    ("census", "CENSUS");
    ("donors", "DONORS");
    ("fraud", "FRAUD");
    ("thyroid-21", "THYROID-21") ].

Definition SHORT_NAMES : gmap string string :=
  dict_literal SHORT_NAMES_items.

(** [DATASET_NAMES = list(DATASET_LINKS.keys()); DATASET_NAMES.extend(OTHER_DATASETS)] *)
Definition DATASET_NAMES : list string :=
  (DATASET_LINKS_items.*1) ++ OTHER_DATASETS.

(** *** The world of the dataset manager *)

(** What the two readers of [get] make of a raw file: a file that
    [scipy.io.loadmat] parses, a MATLAB 7.3 file that only the HDF5 reader
    parses, or a file that neither accepts. *)
Inductive raw_mat : Type :=
| MatV5 (vars : list (string * ndarray))
| MatV73 (items : list (string * ndarray))
| Unreadable.

Inductive node : Type :=
| Dir
| MatFile (r : raw_mat)
| NpyFile (a : ndarray).

Inductive event : Type :=
| Makedirs (path : string)
| Wget (link filename : string)
| NpSave (path : string)
| RandomChoice (population : nat) (size : Z).

Record world : Type := mk_world {
  fs : gmap string node;
  trace : list event;       (* effects performed so far, oldest first *)
  rng : nat                 (* position in the stream of random words *)
}.

Definition log (e : event) : M world unit :=
  fun w => (Ok tt, {| fs := fs w; trace := trace w ++ [e]; rng := rng w |}).

Definition put_node (path : string) (n : node) : M world unit :=
  fun w => (Ok tt, {| fs := <[path := n]> (fs w); trace := trace w; rng := rng w |}).

(** [os.path.exists(path)] *)
Definition os_path_exists (path : string) : M world bool :=
  fun w => (Ok (bool_decide (is_Some (fs w !! path))), w).

(** [os.makedirs(path, exist_ok=True)] *)
Definition os_makedirs (path : string) : M world unit :=
  run log (Makedirs path);
  fun w => match fs w !! path with
           | None => put_node path Dir w
           | Some Dir => (Ok tt, w)
           | Some _ => (Raise OSError, w)
           end.

(** [np.save(path, a)]: the file is created or overwritten. *)
Definition np_save (path : string) (a : ndarray) : M world unit :=
  run log (NpSave path);
  fun w => match fs w !! path with
           | Some Dir => (Raise OSError, w)
           | _ => put_node path (NpyFile a) w
           end.

(** [np.load(path)] *)
Definition np_load (path : string) : M world ndarray :=
  fun w => match fs w !! path with
           | Some (NpyFile a) => (if wf a then Ok a else Raise ValueError, w)
           | Some (MatFile _) => (Raise ValueError, w)
           | Some Dir | None => (Raise OSError, w)
           end.

Definition all_wf (vars : list (string * ndarray)) : bool :=
  forallb (fun kv => wf kv.2) vars.

(** Vocabulary for traces: the saves that reach a path, the random
    draws, and the set-up effects of [get] before it parses the raw file. *)
Definition is_save (path : string) (e : event) : bool :=
  match e with
  | NpSave p => bool_decide (p = path)
  | _ => false
  end.

Definition saves_to (path : string) (tr : list event) : nat :=
  length (List.filter (is_save path) tr).

Definition is_draw (e : event) : bool :=
  match e with
  | RandomChoice _ _ => true
  | _ => false
  end.

Definition is_setup (e : event) : bool :=
  match e with
  | Makedirs _ | Wget _ _ => true
  | _ => false
  end.

(** A computation is quiet when it leaves the files alone and its only
    effects are random draws. *)
Definition quiet {A} (c : M world A) : Prop :=
  forall w, fs (c w).2 = fs w /\
            exists evs, trace (c w).2 = (trace w ++ evs)%list /\
                        forallb is_draw evs = true.

(** Whether [read] takes its subsampling branch on the cached data. *)
Definition subsampling_applies (subsample : option Z) (data : ndarray) : bool :=
  match subsample with
  | Some s => (s <? Z.of_nat (n_rows data))%Z
  | None => false
  end.

Section Manager.

(** [DATA_DIR] of the [utils] module. *)
Variable DATA_DIR : string.
(** The remote server: the file a link delivers, if any. *)
Variable remote : string -> option raw_mat.
(** Rounding to binary32. *)
Variable round_f32 : Q -> Q.

(** [subprocess.run(['wget', link, '-O', filename])]: the exit status is
    not checked; the file appears when the download delivers one. *)
Definition run_wget (link filename : string) : M world unit :=
  run log (Wget link filename);
  match remote link with
  | Some r => put_node filename (MatFile r)
  | None => ret tt
  end.

(** The [try]/[except] block of [get]: [loadmat] first; when it raises
    [NotImplementedError] or [MatReadError] the HDF5 reader fills an
    initially empty dict with the transposed [X] and [y] entries. *)
Definition load_data_dict (filename : string) : M world (gmap string ndarray) :=
  fun w => match fs w !! filename with
           | Some (MatFile (MatV5 vars)) =>
               (if all_wf vars then Ok (dict_literal vars) else Raise ValueError, w)
           | Some (MatFile (MatV73 items)) =>
               (if all_wf items
                then Ok (foldl (fun d kv =>
                                  if list_contains ["X"; "y"] kv.1
                                  then <[kv.1 := transpose (asarray round_f32 kv.2 float64)]> d
                                  else d) ∅ items)
                else Raise OSError, w)
           | Some (MatFile Unreadable) | Some (NpyFile _) | Some Dir | None =>
               (Raise OSError, w)
           end.

Definition get (dataset : string) : M world unit :=
  do link <- lift (dict_getitem DATASET_LINKS dataset);
  let data_path := os_path_join DATA_DIR (dataset ++ ".npy") in
  let labels_path := os_path_join DATA_DIR (dataset ++ "_labels.npy") in
  do dir_exists <- os_path_exists DATA_DIR;
  run (if negb dir_exists then os_makedirs DATA_DIR else ret tt);
  let filename := os_path_join DATA_DIR (dataset ++ ".mat") in
  do have_raw <- os_path_exists filename;
  run (if negb have_raw then run_wget link filename else ret tt);
  do have_raw' <- os_path_exists filename;
  if negb have_raw' then raise ValueError
  else if dict_contains DATASET_LINKS dataset then
    do data_dict <- load_data_dict filename;
    do X <- lift (dict_getitem data_dict "X");
    run np_save data_path (asarray round_f32 X float32);
    do y <- lift (dict_getitem data_dict "y");
    np_save labels_path (asarray round_f32 y uint8)
  else if negb (list_contains OTHER_DATASETS dataset) then raise ValueError
  else ret tt.

(** *** Sampling *)

(** The stream of raw random words behind [np.random]. *)
Variable entropy : nat -> nat.
(** [pyclam.utils.normalize] *)
Variable normalize : ndarray -> string -> result ndarray.

(** [k] draws without replacement from [pool], each draw consuming one
    random word. *)
Fixpoint sample (pos : nat) (pool : list nat) (k : nat) : list nat * nat :=
  match k with
  | O => ([], pos)
  | S k' =>
      let j := (entropy pos mod length pool)%nat in
      match pool !! j with
      | Some x =>
          let '(rest, pos') := sample (S pos) (delete j pool) k' in
          (x :: rest, pos')
      | None => ([], pos)
      end
  end.

(** [np.random.choice(a, size, replace=False)] *)
Definition random_choice (a : list nat) (size : Z) : M world (list nat) :=
  run log (RandomChoice (length a) size);
  if (size <? 0)%Z then raise ValueError
  else if bool_decide (a = []) && negb (size =? 0)%Z then raise ValueError
  else if (Z.of_nat (length a) <? size)%Z then raise ValueError
  else fun w =>
         let '(picked, pos') := sample (rng w) a (Z.to_nat size) in
         (Ok picked, {| fs := fs w; trace := trace w; rng := pos' |}).

(** Truth value of [j == c] for a row [j] of the label array: a row of
    one element compares it, an empty row is false, a longer row has no
    truth value. *)
Definition truth_eq (j : list Q) (c : Q) : result bool :=
  match j with
  | [] => Ok false
  | [x] => Ok (Qeq_bool x c)
  | _ => Raise ValueError
  end.

Fixpoint select_indices (labels : ndarray) (c : Q) (idxs : list nat)
  : result (list nat) :=
  match idxs with
  | [] => Ok []
  | i :: idxs' =>
      match truth_eq (row labels i) c with
      | Raise e => Raise e
      | Ok b =>
          match select_indices labels c idxs' with
          | Raise e => Raise e
          | Ok l => Ok (if b then i :: l else l)
          end
      end
  end.

(** [[i for i, j in enumerate(labels) if j == c]] *)
Definition indices_equal (labels : ndarray) (c : Q) : result (list nat) :=
  match shape labels with
  | [] => Raise TypeError
  | n :: _ => select_indices labels c (seq 0 n)
  end.

(** [int(subsample * (k / n))] for Python ints [k] and [n]; the binary64
    quotient and product are idealised as exact rationals. *)
Definition class_count (subsample : Z) (k n : nat) : result Z :=
  if bool_decide (n = 0%nat) then Raise ZeroDivisionError
  else Ok (py_int (inject_Z subsample * (inject_Z (Z.of_nat k) / inject_Z (Z.of_nat n)))).

Definition subsampled (data labels : ndarray) (subsample : Z) (n : nat)
  : M world (ndarray * ndarray) :=
  do outliers <- lift (indices_equal labels 1);
  do inliers <- lift (indices_equal labels 0);
  do n_out <- lift (class_count subsample (length outliers) n);
  do picked_out <- random_choice outliers n_out;
  do n_in <- lift (class_count subsample (length inliers) n);
  do picked_in <- random_choice inliers (1 + n_in);
  let samples := (picked_out ++ picked_in)%list in
  do data' <- lift (take_rows data samples);
  do labels' <- lift (take_rows labels samples);
  ret (asarray round_f32 data' float64, asarray round_f32 labels' int64).

Definition read (dataset : string) (normalization_mode : option string)
    (subsample : option Z) : M world (ndarray * ndarray) :=
  let data_path := os_path_join DATA_DIR (dataset ++ ".npy") in
  let labels_path := os_path_join DATA_DIR (dataset ++ "_labels.npy") in
  do cached <- os_path_exists data_path;
  run (if negb cached then get dataset else ret tt);
  do data <- np_load data_path;
  do labels <- np_load labels_path;
  do dl <- match subsample with
           | None => ret (data, labels)
           | Some s =>
               do n <- lift (shape0 data);
               if (s <? Z.of_nat n)%Z then subsampled data labels s n
               else ret (data, labels)
           end;
  do data' <- match normalization_mode with
              | None => ret dl.1
              | Some mode => lift (normalize dl.1 mode)
              end;
  ret (asarray round_f32 data' float32,
       asarray round_f32 (squeeze dl.2) uint8).

End Manager.

End Datasets.

(** ** The metrics routines used by [roc_curve] *)

(** A model of [sklearn.metrics.roc_curve] followed by
    [sklearn.metrics.auc], the two library calls of [plot.roc_curve].  The
    library is external to the repository; the model follows its
    documented algorithm, with binary64 arithmetic idealised as exact rationals and
    the undefined rates of a one-class input kept as [NaN]. *)

Module Sklearn.

Inductive pyfloat : Type :=
| Fin (q : Q)
| NaN.

(** Insertion into a list sorted by [leb]. *)
Fixpoint insert_sorted {A} (leb : A -> A -> bool) (x : A) (l : list A) : list A :=
  match l with
  | [] => [x]
  | y :: l' => if leb x y then x :: l else y :: insert_sorted leb x l'
  end.

Definition sort_by {A} (leb : A -> A -> bool) (l : list A) : list A :=
  foldr (insert_sorted leb) [] l.

(** Labels accepted without [pos_label]: a non-empty subset of {0, 1} or
    of {-1, 1}. *)
Definition valid_classes (y_true : list Z) : bool :=
  negb (bool_decide (y_true = [])) &&
  (forallb (fun v => (v =? 0) || (v =? 1))%Z y_true
   || forallb (fun v => (v =? -1) || (v =? 1))%Z y_true).

(** Cumulative (false positive, true positive) counts at each distinct
    score of a list sorted by decreasing score. *)
Fixpoint clf_curve (l : list (Q * bool)) (fps tps : Z) : list (Z * Z) :=
  match l with
  | [] => []
  | (s, pos) :: rest =>
      let fps' := if pos then fps else (fps + 1)%Z in
      let tps' := if pos then (tps + 1)%Z else tps in
      match rest with
      | (s', _) :: _ =>
          if Qeq_bool s s' then clf_curve rest fps' tps'
          else (fps', tps') :: clf_curve rest fps' tps'
      | [] => [(fps', tps')]
      end
  end.

Definition binary_clf_curve (y_true : list Z) (y_score : list Q) : list (Z * Z) :=
  let pairs := zip y_score ((fun v => (v =? 1)%Z) <$> y_true) in
  clf_curve (sort_by (fun a b => Qle_bool b.1 a.1) pairs) 0 0.

(** [drop_intermediate]: an interior point stays when the second
    difference of either coordinate is not zero. *)
Fixpoint drop_collinear (prev : Z * Z) (l : list (Z * Z)) : list (Z * Z) :=
  match l with
  | [] => []
  | [p] => [p]
  | p :: (q :: _) as rest =>
      if ((q.1 - 2 * p.1 + prev.1 =? 0) && (q.2 - 2 * p.2 + prev.2 =? 0))%Z
      then drop_collinear p rest
      else p :: drop_collinear p rest
  end.

Definition drop_intermediate (pts : list (Z * Z)) : list (Z * Z) :=
  match pts with
  | p :: ((_ :: _ :: _) as rest) => p :: drop_collinear p rest
  | _ => pts
  end.

(** [np.trapz(y, x)] on points [(x, y)]. *)
Fixpoint trapz (pts : list (Q * Q)) : Q :=
  match pts with
  | p :: ((q :: _) as rest) => (q.1 - p.1) * (p.2 + q.2) / 2 + trapz rest
  | _ => 0
  end.

(** [fpr = fps / fps[-1]; tpr = tps / tps[-1]] at one point. *)
Definition rates (n_neg n_pos : Z) (p : Z * Z) : Q * Q :=
  (inject_Z p.1 / inject_Z n_neg, inject_Z p.2 / inject_Z n_pos)%Q.

(** [fpr, tpr, _ = roc_curve(y_true, y_score); auc(fpr, tpr)] *)
Definition roc_auc (y_true : list Z) (y_score : list Q) : result pyfloat :=
  if negb (bool_decide (length y_true = length y_score)) then Raise ValueError
  else if negb (valid_classes y_true) then Raise ValueError
  else
    let pts := (0%Z, 0%Z) :: drop_intermediate (binary_clf_curve y_true y_score) in
    let '(n_neg, n_pos) := List.last pts (0%Z, 0%Z) in
    if ((n_neg <=? 0) || (n_pos <=? 0))%Z then Ok NaN
    else Ok (Fin (trapz (rates n_neg n_pos <$> pts))).




End Sklearn.

Export Sklearn.

(** ** [src/plot.py] *)

Module Plot.

Import Byte.

(** Files of the plotting utilities hold bytes. *)
Inductive node : Type :=
| Dir
| File (contents : list byte).

Inductive event : Type :=
| Makedirs (path : string)
| Savefig (path : string)
| PltShow
| OpenWrite (path : string)       (* [open(path, 'w')] or a ['w+'] map *)
| OpenAppend (path : string)      (* [open(path, 'a')] *)
| UmapFit.

Record world : Type := mk_world {
  fs : gmap string node;
  trace : list event
}.

Definition log (e : event) : M world unit :=
  fun w => (Ok tt, {| fs := fs w; trace := trace w ++ [e] |}).

Definition put_node (path : string) (n : node) : M world unit :=
  fun w => (Ok tt, {| fs := <[path := n]> (fs w); trace := trace w |}).

Definition os_path_exists (path : string) : M world bool :=
  fun w => (Ok (bool_decide (is_Some (fs w !! path))), w).

(** [os.makedirs(path, exist_ok=True)] *)
Definition os_makedirs (path : string) : M world unit :=
  run log (Makedirs path);
  fun w => match fs w !! path with
           | None => put_node path Dir w
           | Some Dir => (Ok tt, w)
           | Some (File _) => (Raise OSError, w)
           end.

(** [with open(path, 'w') as f: f.write(text)] *)
Definition write_file (path : string) (text : list byte) : M world unit :=
  run log (OpenWrite path);
  fun w => match fs w !! path with
           | Some Dir => (Raise OSError, w)
           | _ => put_node path (File text) w
           end.

(** [with open(path, 'a') as f: f.write(text)] *)
Definition append_file (path : string) (text : list byte) : M world unit :=
  run log (OpenAppend path);
  fun w => match fs w !! path with
           | Some Dir => (Raise OSError, w)
           | Some (File old) => put_node path (File (old ++ text)) w
           | None => put_node path (File text) w
           end.

Definition bytes_of (s : string) : list byte := list_byte_of_string s.

Definition newline : list byte := [x0a].

(** *** Text of the CSV record *)

Definition digit (d : Z) : byte :=
  match d with
  | 0 => x30 | 1 => x31 | 2 => x32 | 3 => x33 | 4 => x34
  | 5 => x35 | 6 => x36 | 7 => x37 | 8 => x38 | _ => x39
  end%Z.

(** The [k] low decimal digits of [m], most significant first. *)
Fixpoint digits_fixed (k : nat) (m : Z) : list byte :=
  match k with
  | O => []
  | S k' => digit ((m / 10 ^ Z.of_nat k') mod 10) :: digits_fixed k' m
  end.

(** Rounding to the nearest integer, ties to even. *)
Definition round_half_even (q : Q) : Z :=
  let f := Qfloor q in
  match (q - inject_Z f ?= 1 # 2)%Q with
  | Lt => f
  | Gt => (f + 1)%Z
  | Eq => if Z.even f then f else (f + 1)%Z
  end.

(** [f'{s:.16f}'] *)
Definition format_16f (s : Q) : list byte :=
  let m := round_half_even (Qabs s * inject_Z (10 ^ 16)) in
  (if Qlt_le_dec s 0 then [x2d] else []) ++
  bytes_of (str_of_int (m / 10 ^ 16)) ++ [x2e] ++ digits_fixed 16 (m mod 10 ^ 16).

(** [sep.join(parts)] *)
Fixpoint join (sep : list byte) (parts : list (list byte)) : list byte :=
  match parts with
  | [] => []
  | [p] => p
  | p :: parts' => p ++ sep ++ join sep parts'
  end.

(** Order of the tuples [(index, score)]. *)
Definition item_leb (a b : Z * Q) : bool :=
  (a.1 <? b.1)%Z || ((a.1 =? b.1)%Z && Qle_bool a.2 b.2).

(** [f'{depth},{line}\n'] with
    [line = '_'.join([f'{s:.16f}' for i, s in sorted(list(anomalies.items()))])] *)
Definition csv_record (depth : Z) (anomalies : list (Z * Q)) : list byte :=
  let line := join [x5f] (format_16f <$> (sort_by item_leb anomalies).*2) in
  bytes_of (str_of_int depth) ++ [x2c] ++ line ++ newline.

Definition csv_header : list byte := bytes_of "depth,scores" ++ newline.


(** [xs[k]] for a Python list: a negative index counts from the end. *)
Definition list_getitem (xs : list Z) (k : Z) : result Z :=
  let n := Z.of_nat (length xs) in
  let k' := if (k <? 0)%Z then (k + n)%Z else k in
  if ((0 <=? k') && (k' <? n))%Z
  then match xs !! Z.to_nat k' with
       | Some x => Ok x
       | None => Raise IndexError
       end
  else Raise IndexError.

Fixpoint lookup_labels (true_labels : list Z) (keys : list Z) : result (list Z) :=
  match keys with
  | [] => Ok []
  | k :: keys' =>
      match list_getitem true_labels k with
      | Raise e => Raise e
      | Ok y =>
          match lookup_labels true_labels keys' with
          | Raise e => Raise e
          | Ok ys => Ok (y :: ys)
          end
      end
  end.

(** *** Memory-mapped arrays of binary32 values *)

Record memmap : Type := mk_memmap {
  mm_rows : nat;
  mm_cols : Z;
  mm_bytes : list byte
}.

Definition byte_of_Z (z : Z) : byte :=
  default x00 (Byte.of_N (Z.to_N (z mod 256))).

(** Little-endian bytes of a 32-bit word. *)
Definition word_bytes (w : Z) : list byte :=
  [ byte_of_Z w; byte_of_Z (Z.shiftr w 8);
    byte_of_Z (Z.shiftr w 16); byte_of_Z (Z.shiftr w 24) ].

Definition memmap_size (rows : nat) (n_components : Z) : Z :=
  4 * Z.of_nat rows * n_components.

(** [np.memmap(filename, dtype=np.float32, mode='w+', shape=(rows, n_components))]:
    the file is created or truncated, then extended with zero bytes to the
    size of the array; an array of no bytes cannot be mapped. *)
Definition memmap_create (filename : string) (rows : nat) (n_components : Z)
  : M world unit :=
  run log (OpenWrite filename);
  fun w => match fs w !! filename with
           | Some Dir => (Raise OSError, w)
           | _ =>
               let size := memmap_size rows n_components in
               if (size <=? 0)%Z
               then (Raise ValueError, (put_node filename (File []) w).2)
               else put_node filename (File (replicate (Z.to_nat size) x00)) w
           end.

(** [saver[:] = embedding[:]; del saver]: the words of the embedding
    replace the contents of the mapped file; the number of words has to
    fit the shape of the map. *)
Definition memmap_assign (filename : string) (embedding : list Z) : M world unit :=
  fun w => match fs w !! filename with
           | Some (File old) =>
               if bool_decide (length old = (4 * length embedding)%nat)
               then put_node filename (File (concat (word_bytes <$> embedding))) w
               else (Raise ValueError, w)
           | _ => (Raise OSError, w)
           end.

(** A read-only map needs a file that is not empty and holds at least
    the bytes of the array. *)
Definition mappable (contents : list byte) (rows : nat) (n_components : Z) : bool :=
  negb ((memmap_size rows n_components <? 0)%Z
        || bool_decide (length contents = 0%nat)
        || (Z.of_nat (length contents) <? memmap_size rows n_components)%Z).

(** [np.memmap(filename, dtype=np.float32, mode='r', shape=(rows, n_components))]:
    the first bytes of the file are mapped; a file shorter than the array
    cannot be mapped, nor can an empty file. *)
Definition memmap_read (filename : string) (rows : nat) (n_components : Z)
  : M world memmap :=
  fun w => match fs w !! filename with
           | Some (File contents) =>
               if mappable contents rows n_components
               then (Ok {| mm_rows := rows; mm_cols := n_components;
                           mm_bytes := take (Z.to_nat (memmap_size rows n_components))
                                            contents |}, w)
               else (Raise ValueError, w)
           | Some Dir | None => (Raise OSError, w)
           end.

Section Plotting.

(** [PLOTS_PATH] of the [utils] module. *)
Variable PLOTS_PATH : string.
(** The bytes of the image that [fig.savefig] renders for a figure with
    the given title and area label. *)
Variable render : string -> pyfloat -> list byte.
(** [umap.UMAP(n_neighbors, n_components, metric).fit_transform(data)]:
    the binary32 words of the embedding in row-major order. *)
Variable umap_fit_transform : ndarray -> Z -> Z -> string -> result (list Z).

Definition _directory (dataset metric method : string) : string :=
  os_path_join (os_path_join (os_path_join PLOTS_PATH dataset) metric) method.

Definition savefig (path title : string) (auc : pyfloat) : M world unit :=
  run log (Savefig path);
  fun w => match fs w !! path with
           | Some Dir => (Raise OSError, w)
           | _ => put_node path (File (render title auc)) w
           end.

Definition roc_curve (true_labels : list Z) (anomalies : list (Z * Q))
    (dataset metric method : string) (depth : Z) (save : bool)
  : M world pyfloat :=
  do y_true <- lift (lookup_labels true_labels (anomalies.*1));
  let y_score := anomalies.*2 in
  do auc <- lift (roc_auc y_true y_score);
  let title := dataset ++ "-" ++ metric ++ "-" ++ method ++ "-" ++ str_of_int depth in
  let directory := _directory dataset metric method in
  run os_makedirs directory;
  run (if save
       then savefig (os_path_join directory (str_of_int depth ++ "-roc.png")) title auc
       else log PltShow);
  let csv_filepath := os_path_join directory "roc.csv" in
  do have_csv <- os_path_exists csv_filepath;
  run (if negb have_csv then write_file csv_filepath csv_header else ret tt);
  run append_file csv_filepath (csv_record depth anomalies);
  ret auc.

Definition embed_umap (data : ndarray) (n_neighbors n_components : Z)
    (metric filename : string) : M world memmap :=
  do cached <- os_path_exists filename;
  run (if negb cached then
         run log UmapFit;
         do embedding <- lift (umap_fit_transform data n_neighbors n_components metric);
         do rows <- lift (shape0 data);
         run memmap_create filename rows n_components;
         memmap_assign filename embedding
       else ret tt);
  do rows <- lift (shape0 data);
  memmap_read filename rows n_components.

End Plotting.

End Plot.

(** ** [src/plot.py]: the figures *)

(** [histogram], [scatter], [plot_2d] and [plot_3d] draw with matplotlib.
    A figure is kept as the list of the drawing calls made on it; what a
    saved figure looks like is left to a renderer.  Paths are compared as
    they are spelled: a file can be written when the directory part of
    its name is a directory of the world, or is empty. *)

Module Figures.

Import Byte Plot.


(** *** Paths and names *)

Fixpoint drop_until_slash (l : list ascii) : list ascii :=
  match l with
  | [] => []
  | c :: l' => if bool_decide (c = "/"%char) then l else drop_until_slash l'
  end.

Fixpoint drop_slashes (l : list ascii) : list ascii :=
  match l with
  | [] => []
  | c :: l' => if bool_decide (c = "/"%char) then drop_slashes l' else l
  end.

(** [os.path.dirname(p)] on POSIX: the part up to the last separator,
    without trailing separators unless it consists of separators. *)
Definition dirname (p : string) : string :=
  let head := rev (drop_until_slash (rev (list_ascii_of_string p))) in
  let stripped := rev (drop_slashes (rev head)) in
  string_of_list_ascii (if bool_decide (stripped = []) then head else stripped).

(** Whether a file of this name can be created. *)
Definition parent_is_dir (w : world) (path : string) : bool :=
  bool_decide (dirname path = "") ||
  match fs w !! dirname path with
  | Some Dir => true
  | _ => false
  end.

(** [f'{n:03d}'] *)
Definition format_03d (n : Z) : string :=
  let digits := str_of_int (Z.abs n) in
  let sign := if (n <? 0)%Z then "-" else "" in
  let width := (String.length sign + String.length digits)%nat in
  sign ++ string_of_list_ascii (replicate (3 - width) "0"%char) ++ digits.

(** *** Arrays *)

(** [a.shape[1]] *)
Definition shape1 (a : ndarray) : result nat :=
  match shape a with
  | _ :: m :: _ => Ok m
  | _ => Raise IndexError
  end.

(** [a[:, j]] for a non-negative [j] *)
Definition column (a : ndarray) (j : nat) : result ndarray :=
  match shape a with
  | n :: m :: rest =>
      if (j <? m)%nat
      then let inner := prod_shape rest in
           Ok {| arr_dtype := arr_dtype a;
                 shape := n :: rest;
                 flat := i ← seq 0 n;
                         take inner (drop ((i * m + j) * inner) (flat a)) |}
      else Raise IndexError
  | _ => Raise IndexError
  end.

Definition qmin (a b : Q) : Q := if Qle_bool a b then a else b.
Definition qmax (a b : Q) : Q := if Qle_bool a b then b else a.

(** [np.min(a)] and [np.max(a)]: an empty array has no minimum. *)
Definition np_min (a : ndarray) : result Q :=
  match flat a with
  | [] => Raise ValueError
  | x :: xs => Ok (foldl qmin x xs)
  end.

Definition np_max (a : ndarray) : result Q :=
  match flat a with
  | [] => Raise ValueError
  | x :: xs => Ok (foldl qmax x xs)
  end.

Fixpoint floats_of_rows (labels : ndarray) (idxs : list nat) : result (list Q) :=
  match idxs with
  | [] => Ok []
  | i :: idxs' =>
      match row labels i with
      | [x] =>
          match floats_of_rows labels idxs' with
          | Ok l => Ok (x :: l)
          | Raise e => Raise e
          end
      | _ => Raise TypeError
      end
  end.

(** [[float(d) for d in labels]]: an array without axes cannot be
    iterated, and only a row of one element converts to a float. *)
Definition floats_of (labels : ndarray) : result (list Q) :=
  match shape labels with
  | [] => Raise TypeError
  | n :: _ => floats_of_rows labels (seq 0 n)
  end.

(** *** Histograms *)

(** The range of [np.histogram]: from the least to the greatest value,
    widened by a half on each side when they coincide; from 0 to 1 when
    there is no value. *)
Definition hist_range (x : list Q) : Q * Q :=
  match x with
  | [] => (0, 1)%Q
  | v :: vs =>
      let lo := foldl qmin v vs in
      let hi := foldl qmax v vs in
      if Qeq_bool lo hi then (lo - (1 # 2), hi + (1 # 2))%Q else (lo, hi)
  end.

(** The bin of a value among [bins] bins of equal width: the last bin
    includes its right edge. *)
Definition bin_of (lo hi : Q) (bins : nat) (v : Q) : nat :=
  let k := Z.to_nat (Qfloor ((v - lo) / (hi - lo) * inject_Z (Z.of_nat bins))) in
  if (k =? bins)%nat then (bins - 1)%nat else k.

(** The counts [n] of [plt.hist(x, bins)]. *)
Definition hist_counts (x : list Q) (bins : nat) : list Z :=
  let '(lo, hi) := hist_range x in
  (fun b => Z.of_nat (length (List.filter (fun v => (bin_of lo hi bins v =? b)%nat) x)))
    <$> seq 0 bins.

(** [n.max()] *)
Definition counts_max (n : list Z) : Z :=
  match n with
  | [] => 0
  | c :: cs => foldl Z.max c cs
  end.

(** [np.ceil(max_freq / 10) * 10 if max_freq % 10 else max_freq + 10] *)
Definition ylim_top (max_freq : Z) : Q :=
  if negb (max_freq mod 10 =? 0)%Z
  then (inject_Z (Qceiling (inject_Z max_freq / 10)) * 10)%Q
  else (inject_Z max_freq + 10)%Q.

(** *** Figures *)

Inductive sizes : Type :=
| Uniform (s : Q)                (* [s=5.] *)
| PerPoint (s : list Q).         (* [s=10. * labels + 1.] *)

Inductive draw : Type :=
| NewFigure (figsize : option (Q * Q)) (dpi : option Z)
| Hist (counts : list Z)
| GridY
| XLabel (s : string)
| YLabel (s : string)
| YLimTop (top : Q)
| AddSubplot (spatial : bool)
| Scatter (coords : list (list Q)) (c : list Q) (s : sizes)
| XLim (lo hi : Q)
| YLim (lo hi : Q)
| ZLim (lo hi : Q)
| ViewInit (elev azim : Z)
| Title (s : string)
| AxisOff
| SubplotsAdjust
| Margins.

Definition figure : Type := list draw.

Section Drawing.

(** The bytes [savefig] writes for a figure; the second argument is the
    padding of a tight bounding box, if one is asked for. *)
Variable render : figure -> option Q -> list byte.
(** Whether [Axes.scatter] accepts coordinates, colours and sizes. *)
Variable scatter_accepts : list (list Q) -> list Q -> sizes -> result unit.
(** The file [savefig] writes for a name: the name itself when its
    extension is a format of the backend. *)
Variable image_file : string -> result string.

Definition savefig (fname : string) (fig : figure) (pad : option Q) : M world unit :=
  run log (Savefig fname);
  do path <- lift (image_file fname);
  fun w => if parent_is_dir w path
           then match fs w !! path with
                | Some Dir => (Raise OSError, w)
                | _ => put_node path (File (render fig pad)) w
                end
           else (Raise OSError, w).

Definition histogram (x : list Q) (dataset metric method : string) (depth : Z)
    (save : bool) : M world unit :=
  let n := hist_counts x 100 in
  let max_freq := counts_max n in
  let fig := [NewFigure None None; Hist n; GridY; XLabel "Anomalousness";
              YLabel "Counts"; YLimTop (ylim_top max_freq)] in
  if save
  then let filepath := "../data/" ++ dataset ++ "/plots/" ++ metric ++ "/" ++ method
                         ++ "/" ++ str_of_int depth ++ "-histogram.png" in
       savefig filepath fig None
  else log PltShow.

Definition scatter (data : ndarray) (labels : list Z) (name : string) : M world unit :=
  let fig := [NewFigure (Some (6, 6)%Q) (Some 300%Z)] in
  let c := inject_Z <$> labels in
  do cols <- lift (shape1 data);
  do fig <-
    (if (cols =? 2)%nat then
       do x <- lift (column data 0);
       do y <- lift (column data 1);
       run lift (scatter_accepts [flat x; flat y] c (Uniform 5));
       do x0 <- lift (np_min x);
       do x1 <- lift (np_max x);
       do y0 <- lift (np_min y);
       do y1 <- lift (np_max y);
       ret (fig ++ [AddSubplot false; Scatter [flat x; flat y] c (Uniform 5);
                    XLim x0 x1; YLim y0 y1])%list
     else if (cols =? 3)%nat then
       do x <- lift (column data 0);
       do y <- lift (column data 1);
       do z <- lift (column data 2);
       run lift (scatter_accepts [flat x; flat y; flat z] c (Uniform 5));
       do x0 <- lift (np_min x);
       do x1 <- lift (np_max x);
       do y0 <- lift (np_min y);
       do y1 <- lift (np_max y);
       do z0 <- lift (np_min z);
       do z1 <- lift (np_max z);
       ret (fig ++ [AddSubplot true; Scatter [flat x; flat y; flat z] c (Uniform 5);
                    XLim x0 x1; YLim y0 y1; ZLim z0 z1; ViewInit 20 60])%list
     else ret fig);
  run savefig name fig (Some (1 # 4)%Q);
  log PltShow.

Definition plot_2d (data labels : ndarray) (title filename : string)
    (figsize : Q * Q) (dpi : Z) : M world unit :=
  do x <- lift (column data 0);
  do y <- lift (column data 1);
  do c <- lift (floats_of labels);
  let s := PerPoint ((fun l => 10 * l + 1)%Q <$> flat labels) in
  run lift (scatter_accepts [flat x; flat y] c s);
  savefig filename
          [NewFigure (Some figsize) (Some dpi); AddSubplot false;
           Scatter [flat x; flat y] c s; Title title]
          (Some (1 # 4)%Q).

(** The loop of [plot_3d]: one view and one file for each azimuth. *)
Fixpoint save_views (folder : string) (fig : figure) (azimuths : list Z) : M world unit :=
  match azimuths with
  | [] => ret tt
  | azimuth :: rest =>
      let fig' := (fig ++ [ViewInit 10 azimuth])%list in
      run savefig (folder ++ format_03d azimuth ++ ".png") fig' (Some 0%Q);
      save_views folder fig' rest
  end.

Definition plot_3d (data labels : ndarray) (title folder : string)
    (figsize : Q * Q) (dpi : Z) : M world unit :=
  do x <- lift (column data 0);
  do y <- lift (column data 1);
  do z <- lift (column data 2);
  do c <- lift (floats_of labels);
  let s := PerPoint ((fun l => 10 * l + (1 # 10))%Q <$> flat labels) in
  run lift (scatter_accepts [flat x; flat y; flat z] c s);
  save_views folder
             [NewFigure (Some figsize) (Some dpi); AddSubplot true;
              Scatter [flat x; flat y; flat z] c s; Title title;
              AxisOff; SubplotsAdjust; Margins]
             (seqZ 0 360).

End Drawing.

End Figures.

(** ** Sample worlds *)

Module Examples.

Import Datasets.

(** Three instances with two attributes, the second one an outlier. *)
Definition sample_X : ndarray := mk_ndarray float64 [3; 2]%nat [1; 2; 3; 4; 5; 6]%Q.
Definition sample_y : ndarray := mk_ndarray float64 [3; 1]%nat [0; 1; 0]%Q.

(** A server that delivers this data set for every link. *)
Definition sample_remote (link : string) : option raw_mat :=
  Some (MatV5 [("X", sample_X); ("y", sample_y)]).


Definition no_rounding (q : Q) : Q := q.
Definition counter (i : nat) : nat := i.
Definition no_normalize (a : ndarray) (mode : string) : result ndarray := Ok a.

Definition empty_world : world := mk_world ∅ [] 0.

Definition sample_get : string -> M world unit :=
  Datasets.get "data" sample_remote no_rounding.
Definition sample_read : string -> option string -> option Z -> M world (ndarray * ndarray) :=
  Datasets.read "data" sample_remote no_rounding counter no_normalize.

(** The world after a first [get] of the wine data set, and the two
    arrays it has cached. *)
Definition wine_world : world := (sample_get "wine" empty_world).2.
Definition wine_data : ndarray := asarray no_rounding sample_X float32.
Definition wine_labels : ndarray := asarray no_rounding sample_y uint8.



(** Plotting: a renderer, an embedding routine that yields six words, and
    a data set of three rows. *)
Definition sample_render (title : string) (auc : pyfloat) : list Byte.byte :=
  Plot.bytes_of title.
Definition three_rows : ndarray := mk_ndarray float64 [3; 4]%nat [].

Definition empty_plots : Plot.world := Plot.mk_world ∅ [].

Definition sample_roc_curve (true_labels : list Z) (anomalies : list (Z * Q)) :=
  Plot.roc_curve "plots" sample_render true_labels anomalies "wine" "euclidean" "m" 5 true.


(** A world whose raw file for the wine data set holds features only. *)
Definition unlabeled_world : world :=
  mk_world {[ "data/wine.mat" := MatFile (MatV5 [("X", sample_X)]) ]} [] 0.

(** A MATLAB 7.3 file as the HDF5 reader sees it: attributes by
    instances, and a variable that is neither [X] nor [y]. *)
Definition hdf5_items : list (string * ndarray) :=
  [ ("X", mk_ndarray float64 [2; 3]%nat [1; 3; 5; 2; 4; 6]%Q);
    ("#refs#", mk_ndarray float64 [1]%nat [7]%Q);
    ("y", mk_ndarray float64 [1; 3]%nat [0; 1; 0]%Q) ].
Definition hdf5_world : world :=
  mk_world {[ "data/wine.mat" := MatFile (MatV73 hdf5_items) ]} [] 0.

(** An embedding routine that rejects its input. *)
Definition failing_umap (data : ndarray) (n_neighbors n_components : Z)
    (metric : string) : result (list Z) := Raise ValueError.

(** Drawing: a renderer that writes one byte for each drawing call, a
    backend that accepts all points and writes a figure to the name it is
    given. *)
Definition sketch (fig : Figures.figure) (pad : option Q) : list Byte.byte :=
  replicate (length fig) Byte.x2a.
Definition accept_all (coords : list (list Q)) (c : list Q) (s : Figures.sizes)
  : result unit := Ok tt.
Definition as_named (fname : string) : result string := Ok fname.

(** A world in which the directory of the wine histograms exists. *)
Definition histogram_world : Plot.world :=
  Plot.mk_world {[ "../data/wine/plots/euclidean/m" := Plot.Dir ]} [].

(** One point in space with its label, and a vector of three labels. *)
Definition one_point : ndarray := mk_ndarray float64 [1; 3]%nat [1; 2; 3]%Q.
Definition one_label : ndarray := mk_ndarray uint8 [1]%nat [1]%Q.
Definition label_vector : ndarray := mk_ndarray uint8 [3]%nat [0; 1; 0]%Q.

End Examples.

(** * Properties *)

(** ** Reasoning about the monad *)

Lemma bind_Ok_inv {W A B} (c : M W A) (k : A -> M W B) (w w' : W) (b : B) :
  bind c k w = (Ok b, w') ->
  exists a w1, c w = (Ok a, w1) /\ k a w1 = (Ok b, w').
Proof.
  unfold bind. destruct (c w) as [[a|e] w1]; intros H.
  - by exists a, w1.
  - discriminate.
Qed.

Lemma bind_Ok_eq {W A B} (c : M W A) (k : A -> M W B) (w w1 : W) (a : A) :
  c w = (Ok a, w1) -> bind c k w = k a w1.
Proof. unfold bind. by intros ->. Qed.

Lemma lift_Ok_inv {W A} (r : result A) (w w' : W) (a : A) :
  lift r w = (Ok a, w') -> r = Ok a /\ w' = w.
Proof. unfold lift. intros H. injection H as -> ->. done. Qed.

Lemma ret_Ok_inv {W A} (x a : A) (w w' : W) :
  ret x w = (Ok a, w') -> a = x /\ w' = w.
Proof. unfold ret. intros H. injection H as -> ->. done. Qed.

Lemma dict_literal_keys {V} (items : list (string * V)) (k : string) (v : V) :
  dict_literal items !! k = Some v -> k ∈ items.*1.
Proof.
  unfold dict_literal.
  assert (Hgen : forall m : gmap string V,
             foldl (fun m kv => <[kv.1 := kv.2]> m) m items !! k = Some v ->
             m !! k = Some v \/ k ∈ items.*1).
  { induction items as [|[k' v'] items IH]; intros m H; simpl in *.
    - by left.
    - destruct (IH _ H) as [Hm | Hin].
      + destruct (decide (k' = k)) as [->|Hne].
        * right. left.
        * rewrite lookup_insert_ne in Hm by done. by left.
      + right. by right. }
  intros H. destruct (Hgen ∅ H) as [Hm | Hin]; [|done].
  by rewrite lookup_empty in Hm.
Qed.

(** ** Paths *)

Lemma string_app_inv_head (p a b : string) : p ++ a = p ++ b -> a = b.
Proof. apply String.app_inj. Qed.

Lemma string_app_length (a b : string) :
  String.length (a ++ b) = (String.length a + String.length b)%nat.
Proof.
  induction a as [|c a IH]; [done|].
  change (S (String.length (a ++ b)) = S (String.length a + String.length b)).
  by rewrite IH.
Qed.

Lemma string_app_assoc (a b c : string) : (a ++ b) ++ c = a ++ (b ++ c).
Proof.
  induction a as [|x a IH]; [done|].
  change (String x ((a ++ b) ++ c) = String x (a ++ b ++ c)). by rewrite IH.
Qed.

(** Joining relative names onto one directory puts one prefix before
    each of them. *)
Lemma os_path_join_relative (dir : string) :
  exists prefix, forall x, starts_with_slash x = false -> os_path_join dir x = prefix ++ x.
Proof.
  destruct (bool_decide (dir = "") || ends_with_slash dir) eqn:Hsep.
  - exists dir. intros x Hx. unfold os_path_join. by rewrite Hx, Hsep.
  - exists (dir ++ "/"). intros x Hx. unfold os_path_join. rewrite Hx, Hsep.
    by rewrite string_app_assoc.
Qed.

Lemma os_path_join_inj (dir x y : string) :
  starts_with_slash x = false -> starts_with_slash y = false ->
  os_path_join dir x = os_path_join dir y -> x = y.
Proof.
  intros Hx Hy. destruct (os_path_join_relative dir) as [prefix Hp].
  rewrite !Hp by done. apply string_app_inv_head.
Qed.

(** ** The dataset manager *)

Module DatasetsProofs.

Import Datasets Examples.

(** C9: every key of the download registry has exactly one URL and
    exactly one short display label; the two dict literals list each such
    name once. *)
Theorem registry_one_url_one_short_name (name : string) :
  is_Some (DATASET_LINKS !! name) ->
  (exists! url, DATASET_LINKS !! name = Some url) /\
  (exists! label, SHORT_NAMES !! name = Some label) /\
  length (filter (fun kv => kv.1 = name) DATASET_LINKS_items) = 1%nat /\
  length (filter (fun kv => kv.1 = name) SHORT_NAMES_items) = 1%nat.
Proof.
  intros [url Hurl].
  pose proof (dict_literal_keys _ _ _ Hurl) as Hin.
  assert (Hs : is_Some (SHORT_NAMES !! name) /\
    length (filter (fun kv => kv.1 = name) DATASET_LINKS_items) = 1%nat /\
    length (filter (fun kv => kv.1 = name) SHORT_NAMES_items) = 1%nat).
  { clear Hurl. cbn in Hin.
    repeat (apply elem_of_cons in Hin as [-> | Hin]; [vm_compute; eauto |]).
    by apply elem_of_nil in Hin. }
  destruct Hs as ([label Hl] & Hc1 & Hc2).
  split; [|split; [|done]].
  - exists url. split; [done|]. intros u Hu. congruence.
  - exists label. split; [done|]. intros u Hu. congruence.
Qed.

Lemma registry_one_url_one_short_name_witness :
  (exists! url, DATASET_LINKS !! "mnist" = Some url) /\
  (exists! label, SHORT_NAMES !! "mnist" = Some label) /\
  length (filter (fun kv => kv.1 = "mnist") DATASET_LINKS_items) = 1%nat /\
  length (filter (fun kv => kv.1 = "mnist") SHORT_NAMES_items) = 1%nat.
Proof.
  apply (registry_one_url_one_short_name "mnist").
  vm_compute. eauto.
Defined.

Lemma registry_names_relative (dataset : string) :
  is_Some (DATASET_LINKS !! dataset) ->
  starts_with_slash (dataset ++ ".npy") = false /\
  starts_with_slash (dataset ++ "_labels.npy") = false /\
  starts_with_slash (dataset ++ ".mat") = false.
Proof.
  intros [url Hurl]. apply dict_literal_keys in Hurl as Hin. cbn in Hin.
  repeat (apply elem_of_cons in Hin as [-> | Hin]; [by vm_compute |]).
  by apply elem_of_nil in Hin.
Qed.

Section Manager.

Variable DATA_DIR : string.
Variable remote : string -> option raw_mat.
Variable round_f32 : Q -> Q.
Variable entropy : nat -> nat.
Variable normalize : ndarray -> string -> result ndarray.

Local Abbreviation get := (Datasets.get DATA_DIR remote round_f32).
Local Abbreviation read := (Datasets.read DATA_DIR remote round_f32 entropy normalize).
Local Abbreviation data_path dataset := (os_path_join DATA_DIR (dataset ++ ".npy")).
Local Abbreviation labels_path dataset := (os_path_join DATA_DIR (dataset ++ "_labels.npy")).
Local Abbreviation raw_path dataset := (os_path_join DATA_DIR (dataset ++ ".mat")).

(** The URL lookup is the first statement of [get]: a name outside the
    download registry raises [KeyError] there, before any effect. *)
Lemma get_not_in_links (dataset : string) (w : world) :
  DATASET_LINKS !! dataset = None ->
  get dataset w = (Raise KeyError, w).
Proof.
  intros H. unfold Datasets.get, bind, lift, dict_getitem. by rewrite H.
Qed.

(** C4: for a name that is neither in the download registry nor in the
    no-download list, [get] raises a lookup error and leaves the world
    as it was: no directory made, no download, no file saved. *)
Theorem get_unknown_raises_before_effects (dataset : string) (w : world) :
  DATASET_LINKS !! dataset = None ->
  dataset ∉ OTHER_DATASETS ->
  exists e, get dataset w = (Raise e, w) /\ is_lookup_error e = true.
Proof.
  intros Hlinks _. exists KeyError. split; [|done].
  by apply get_not_in_links.
Qed.

(** C1: [get] on the no-download name ["backdoor"] raises [KeyError] at
    the URL lookup, although the name is in [OTHER_DATASETS]. *)
Theorem get_other_dataset_raises_KeyError (w : world) :
  "backdoor" ∈ OTHER_DATASETS /\
  DATASET_LINKS !! "backdoor" = None /\
  get "backdoor" w = (Raise KeyError, w).
Proof.
  split; [|split].
  - by apply (bool_decide_unpack _); vm_compute.
  - by vm_compute.
  - apply get_not_in_links. by vm_compute.
Qed.

(** *** Stratified subsample counts *)




Lemma cache_paths_distinct (dataset : string) :
  is_Some (DATASET_LINKS !! dataset) ->
  data_path dataset <> labels_path dataset.
Proof.
  intros Hreg Heq.
  destruct (registry_names_relative dataset Hreg) as (Hd & Hl & _).
  apply os_path_join_inj in Heq; [|done..].
  by apply string_app_inv_head in Heq.
Qed.

Lemma makedirs_step (b : bool) (w w2 : world) :
  (if b then os_makedirs DATA_DIR else ret tt) w = (Ok tt, w2) ->
  rng w2 = rng w /\
  exists pre, trace w2 = (trace w ++ pre)%list /\ forallb is_setup pre = true.
Proof.
  intros H. destruct b.
  - unfold os_makedirs, bind, log, put_node in H. simpl in H.
    destruct (fs w !! DATA_DIR) as [[| |]|]; try discriminate;
      injection H as <-; (split; [done|]); by exists [Makedirs DATA_DIR].
  - injection H as <-. split; [done|]. exists []. by rewrite app_nil_r.
Qed.

Lemma wget_step (b : bool) (link filename : string) (w w2 : world) :
  (if b then run_wget remote link filename else ret tt) w = (Ok tt, w2) ->
  rng w2 = rng w /\
  exists pre, trace w2 = (trace w ++ pre)%list /\ forallb is_setup pre = true.
Proof.
  intros H. destruct b.
  - unfold run_wget, bind, log, put_node, ret in H. simpl in H.
    destruct (remote link); injection H as <-; (split; [done|]);
      by exists [Wget link filename].
  - injection H as <-. split; [done|]. exists []. by rewrite app_nil_r.
Qed.

Lemma load_data_dict_world (filename : string) (w w' : world) (r : result (gmap string ndarray)) :
  load_data_dict round_f32 filename w = (r, w') -> w' = w.
Proof.
  unfold load_data_dict. intros H.
  repeat match type of H with
         | context [match ?x with _ => _ end] => destruct x
         end; by injection H.
Qed.

Lemma get_Ok_inv (dataset : string) (w w' : world) :
  get dataset w = (Ok tt, w') ->
  exists (w3 : world) (pre : list event) (d : gmap string ndarray) (X y : ndarray),
    is_Some (DATASET_LINKS !! dataset) /\
    trace w3 = (trace w ++ pre)%list /\
    forallb is_setup pre = true /\
    rng w3 = rng w /\
    load_data_dict round_f32 (raw_path dataset) w3 = (Ok d, w3) /\
    d !! "X" = Some X /\ d !! "y" = Some y /\
    w' = {| fs := <[labels_path dataset := NpyFile (asarray round_f32 y uint8)]>
                    (<[data_path dataset := NpyFile (asarray round_f32 X float32)]> (fs w3));
            trace := ((trace w3 ++ [NpSave (data_path dataset)]) ++
                      [NpSave (labels_path dataset)])%list;
            rng := rng w3 |}.
Proof.
  intros H. unfold Datasets.get in H.
  apply bind_Ok_inv in H as (link & w1 & Hlink & H).
  apply lift_Ok_inv in Hlink as [Hlink ->].
  unfold dict_getitem in Hlink.
  destruct (DATASET_LINKS !! dataset) as [link'|] eqn:Hl; [|discriminate].
  apply bind_Ok_inv in H as (b1 & w1 & Hb1 & H).
  unfold os_path_exists in Hb1. injection Hb1 as <- <-.
  apply bind_Ok_inv in H as ([] & w2 & Hmk & H).
  apply makedirs_step in Hmk as (Hrng2 & pre1 & Htr2 & Hpre1).
  apply bind_Ok_inv in H as (b2 & w2' & Hb2 & H).
  unfold os_path_exists in Hb2. injection Hb2 as <- <-.
  apply bind_Ok_inv in H as ([] & w3 & Hwget & H).
  apply wget_step in Hwget as (Hrng3 & pre2 & Htr3 & Hpre2).
  apply bind_Ok_inv in H as (b3 & w3' & Hb3 & H).
  unfold os_path_exists in Hb3. injection Hb3 as <- <-.
  destruct (negb (bool_decide (is_Some (fs w3 !! raw_path dataset)))); [discriminate|].
  assert (Hc : dict_contains DATASET_LINKS dataset = true).
  { unfold dict_contains. rewrite Hl. by apply bool_decide_eq_true_2. }
  rewrite Hc in H.
  apply bind_Ok_inv in H as (d & w4 & Hload & H).
  pose proof (load_data_dict_world _ _ _ _ Hload) as ->.
  apply bind_Ok_inv in H as (X & w4 & HX & H).
  apply lift_Ok_inv in HX as [HX ->].
  apply bind_Ok_inv in H as ([] & w4 & Hsx & H).
  apply bind_Ok_inv in H as (y & w5 & Hy & H).
  apply lift_Ok_inv in Hy as [Hy ->].
  exists w3, (pre1 ++ pre2)%list, d, X, y.
  split; [done|]. split; [by rewrite Htr3, Htr2, app_assoc|].
  split; [by rewrite forallb_app, Hpre1, Hpre2|].
  split; [congruence|]. split; [done|].
  unfold dict_getitem in HX, Hy.
  destruct (d !! "X") as [X'|]; [injection HX as ->|discriminate].
  destruct (d !! "y") as [y'|]; [injection Hy as ->|discriminate].
  split; [done|]. split; [done|].
  unfold np_save, bind, log, put_node in Hsx, H. simpl in Hsx, H.
  destruct (fs w3 !! data_path dataset) as [[| |]|]; try discriminate;
    injection Hsx as <-; simpl in H;
    destruct (<[data_path dataset:=NpyFile (asarray round_f32 X float32)]> (fs w3)
                !! labels_path dataset) as [[| |]|]; try discriminate;
    by injection H as <-.
Qed.

(** *** Sampling *)

Lemma sample_subset (pos : nat) (pool : list nat) (k : nat) (x : nat) :
  x ∈ (sample entropy pos pool k).1 -> x ∈ pool.
Proof.
  revert pos pool. induction k as [|k IH]; intros pos pool; simpl.
  - by intros ?%elem_of_nil.
  - destruct (pool !! (entropy pos mod length pool)%nat) as [y|] eqn:Hy;
      [|by intros ?%elem_of_nil].
    destruct (sample entropy (S pos) (delete (entropy pos mod length pool)%nat pool) k)
      as [rest pos'] eqn:Hs.
    simpl. intros [->|Hin]%elem_of_cons.
    + by eapply list_elem_of_lookup_2.
    + eapply list_elem_of_delete_inv. apply (IH (S pos)). by rewrite Hs.
Qed.

Lemma random_choice_Ok (a : list nat) (size : Z) (w w' : world) (picked : list nat) :
  random_choice entropy a size w = (Ok picked, w') ->
  fs w' = fs w /\
  trace w' = (trace w ++ [RandomChoice (length a) size])%list /\
  (forall x, x ∈ picked -> x ∈ a) /\
  (a = [] -> size = 0%Z).
Proof.
  unfold random_choice, bind, log, raise. simpl.
  destruct (size <? 0)%Z; [discriminate|].
  destruct (bool_decide (a = []) && negb (size =? 0)%Z) eqn:He; [discriminate|].
  destruct (Z.of_nat (length a) <? size)%Z; [discriminate|].
  simpl. destruct (sample entropy (rng w) a (Z.to_nat size)) as [p pos'] eqn:Hs.
  intros H. injection H as <- <-. simpl.
  repeat split.
  - intros x Hx. apply (sample_subset (rng w) a (Z.to_nat size)). by rewrite Hs.
  - intros ->. rewrite bool_decide_eq_true_2 in He by done. simpl in He.
    apply negb_false_iff in He. lia.
Qed.

Lemma truth_eq_true (j : list Q) (c : Q) :
  truth_eq j c = Ok true -> exists x, j = [x].
Proof. destruct j as [|x [|??]]; simpl; intros H; try discriminate. eauto. Qed.

Lemma select_indices_Ok (labels : ndarray) (c : Q) (idxs l : list nat) :
  select_indices labels c idxs = Ok l ->
  forall i, i ∈ l -> i ∈ idxs /\ exists x, row labels i = [x].
Proof.
  revert l. induction idxs as [|i0 idxs IH]; intros l; simpl.
  - intros H. injection H as <-. by intros i ?%elem_of_nil.
  - destruct (truth_eq (row labels i0) c) as [b|] eqn:Hb; [|discriminate].
    destruct (select_indices labels c idxs) as [l0|]; [|discriminate].
    intros H. injection H as <-. intros i Hi.
    destruct b.
    + apply elem_of_cons in Hi as [->|Hi].
      * split; [left|]. by eapply truth_eq_true.
      * destruct (IH l0 eq_refl i Hi). split; [by right|done].
    + destruct (IH l0 eq_refl i Hi). split; [by right|done].
Qed.

Lemma indices_equal_Ok (labels : ndarray) (c : Q) (l : list nat) :
  indices_equal labels c = Ok l ->
  forall i, i ∈ l -> (i < n_rows labels)%nat /\ exists x, row labels i = [x].
Proof.
  unfold indices_equal, n_rows. destruct (shape labels) as [|n rest]; [discriminate|].
  intros H i Hi. destruct (select_indices_Ok _ _ _ _ H i Hi) as [Hin Hrow].
  split; [|done]. apply elem_of_seq in Hin. simpl. lia.
Qed.

Lemma take_rows_Ok (a a' : ndarray) (samples : list nat) :
  take_rows a samples = Ok a' ->
  shape a' = length samples :: tail (shape a) /\
  flat a' = concat (map (row a) samples).
Proof.
  unfold take_rows. destruct (shape a) as [|n rest]; [discriminate|].
  destruct (forallb _ samples); [|discriminate].
  intros H. by injection H as <-.
Qed.

Lemma length_concat_rows (a : ndarray) (samples : list nat) :
  (forall i, i ∈ samples -> exists x, row a i = [x]) ->
  length (concat (map (row a) samples)) = length samples.
Proof.
  induction samples as [|i samples IH]; intros H; simpl; [done|].
  rewrite length_app. destruct (H i) as [x ->]; [left|].
  simpl. f_equal. apply IH. intros j Hj. apply H. by right.
Qed.

Lemma class_count_zero (s : Z) (n : nat) (c : Z) :
  class_count s 0 n = Ok c -> c = 0%Z.
Proof.
  unfold class_count. destruct (bool_decide (n = 0%nat)); [discriminate|].
  intros H. injection H as <-.
  set (q := (inject_Z s * (inject_Z (Z.of_nat 0) / inject_Z (Z.of_nat n)))%Q).
  assert (Hq : (q == 0)%Q).
  { unfold q. simpl. unfold Qdiv. rewrite Qmult_0_l. apply Qmult_0_r. }
  unfold py_int.
  assert (Hle : Qle_bool 0 q = true) by (apply Qle_bool_iff; rewrite Hq; apply Qle_refl).
  rewrite Hle, (Qfloor_comp _ _ Hq). reflexivity.
Qed.

Lemma prod_shape_one (s : list nat) :
  prod_shape s = 1%nat -> filter (fun d => d <> 1%nat) s = [].
Proof.
  induction s as [|d s IH]; simpl; [done|]. intros H.
  apply Nat.eq_mul_1 in H as [-> Hs].
  rewrite filter_cons_False by (intros Hne; by apply Hne). by apply IH.
Qed.

(** A full row of a well-formed array has [row_size] elements. *)
Lemma length_row (a : ndarray) (i : nat) :
  wf a = true -> (i < n_rows a)%nat -> length (row a i) = row_size a.
Proof.
  unfold wf, row, row_size, n_rows. intros Hwf%bool_decide_eq_true Hi.
  destruct (shape a) as [|n rest]; simpl in *; [lia|].
  rewrite length_take, length_drop, Hwf. nia.
Qed.

Lemma subsampled_Ok (data labels X y : ndarray) (s : Z) (n : nat) (w w' : world) :
  subsampled round_f32 entropy data labels s n w = (Ok (X, y), w') ->
  exists samples : list nat,
    shape X = length samples :: tail (shape data) /\
    shape y = length samples :: tail (shape labels) /\
    length (flat y) = length samples /\
    arr_dtype y = int64 /\
    (wf labels = true -> row_size labels = 1%nat) /\
    fs w' = fs w /\
    exists evs, trace w' = (trace w ++ evs)%list /\ forallb is_draw evs = true.
Proof.
  unfold subsampled. intros H.
  apply bind_Ok_inv in H as (outliers & w1 & Ho & H).
  apply lift_Ok_inv in Ho as [Ho ->].
  apply bind_Ok_inv in H as (inliers & w1 & Hi & H).
  apply lift_Ok_inv in Hi as [Hi ->].
  apply bind_Ok_inv in H as (n_out & w1 & Hno & H).
  apply lift_Ok_inv in Hno as [Hno ->].
  apply bind_Ok_inv in H as (picked_out & w1 & Hpo & H).
  apply random_choice_Ok in Hpo as (Hfs1 & Htr1 & Hsub1 & _).
  apply bind_Ok_inv in H as (n_in & w2 & Hni & H).
  apply lift_Ok_inv in Hni as [Hni ->].
  apply bind_Ok_inv in H as (picked_in & w2 & Hpi & H).
  apply random_choice_Ok in Hpi as (Hfs2 & Htr2 & Hsub2 & Hempty).
  apply bind_Ok_inv in H as (data' & w3 & Hd & H).
  apply lift_Ok_inv in Hd as [Hd ->].
  apply bind_Ok_inv in H as (labels' & w3 & Hl & H).
  apply lift_Ok_inv in Hl as [Hl ->].
  apply ret_Ok_inv in H as [H ->]. injection H as -> ->.
  apply take_rows_Ok in Hd as [Hds _].
  apply take_rows_Ok in Hl as [Hls Hlf].
  exists (picked_out ++ picked_in)%list. simpl.
  assert (Hrows : forall i, i ∈ (picked_out ++ picked_in)%list ->
                    (i < n_rows labels)%nat /\ exists x, row labels i = [x]).
  { intros i [Hin|Hin]%elem_of_app.
    - by eapply indices_equal_Ok; [exact Ho | apply Hsub1].
    - by eapply indices_equal_Ok; [exact Hi | apply Hsub2]. }
  split; [done|]. split; [done|]. split.
  { rewrite length_map, Hlf. apply length_concat_rows. intros i Hin. by apply Hrows. }
  split; [done|]. split.
  { intros Hwf. destruct inliers as [|i0 inliers'] eqn:Hin.
    - apply class_count_zero in Hni as ->. specialize (Hempty eq_refl). lia.
    - destruct (indices_equal_Ok _ _ _ Hi i0) as [Hlt [x Hx]]; [left|].
      rewrite <- (length_row labels i0 Hwf Hlt), Hx. done. }
  split; [congruence|].
  eexists. split; [rewrite Htr2, Htr1, <- app_assoc; reflexivity | done].
Qed.

(** *** Quiet computations *)

Lemma quiet_ret {A} (a : A) : quiet (ret a).
Proof. intros w. split; [done|]. exists []. by rewrite app_nil_r. Qed.

Lemma quiet_raise {A} (e : exn) : quiet (@raise world A e).
Proof. intros w. split; [done|]. exists []. by rewrite app_nil_r. Qed.

Lemma quiet_lift {A} (r : result A) : quiet (lift r).
Proof. intros w. split; [done|]. exists []. by rewrite app_nil_r. Qed.

Lemma quiet_bind {A B} (c : M world A) (k : A -> M world B) :
  quiet c -> (forall a, quiet (k a)) -> quiet (bind c k).
Proof.
  intros Hc Hk w. unfold bind. destruct (Hc w) as (Hfs & evs & Htr & Hev).
  destruct (c w) as [[a|e] w1]; simpl in *.
  - destruct (Hk a w1) as (Hfs' & evs' & Htr' & Hev').
    split; [congruence|]. exists (evs ++ evs')%list.
    split; [by rewrite Htr', Htr, app_assoc | by rewrite forallb_app, Hev, Hev'].
  - split; [done|]. by exists evs.
Qed.

Lemma quiet_os_path_exists (path : string) : quiet (os_path_exists path).
Proof. intros w. split; [done|]. exists []. by rewrite app_nil_r. Qed.

Lemma quiet_np_load (path : string) : quiet (np_load path).
Proof.
  intros w. unfold np_load.
  destruct (fs w !! path) as [[| |]|]; (split; [done|]); exists []; by rewrite app_nil_r.
Qed.

Lemma quiet_random_choice (a : list nat) (size : Z) :
  quiet (random_choice entropy a size).
Proof.
  intros w. unfold random_choice, bind, log, raise. simpl.
  repeat match goal with
         | |- context [if ?b then _ else _] => destruct b
         end; simpl;
    try (split; [done|]; by exists [RandomChoice (length a) size]).
  destruct (sample entropy (rng w) a (Z.to_nat size)). simpl.
  split; [done|]. by exists [RandomChoice (length a) size].
Qed.

Lemma quiet_subsampled (data labels : ndarray) (s : Z) (n : nat) :
  quiet (subsampled round_f32 entropy data labels s n).
Proof.
  unfold subsampled.
  repeat first [ apply quiet_random_choice | apply quiet_lift | apply quiet_ret
               | apply quiet_bind; [|intros ?]
               | progress cbv zeta ].
Qed.

(** With the feature file in place [read] does not call [get]: it is
    quiet. *)
Lemma read_cached_quiet (dataset : string) (mode : option string) (sub : option Z)
    (w : world) :
  is_Some (fs w !! data_path dataset) ->
  fs (read dataset mode sub w).2 = fs w /\
  exists evs, trace (read dataset mode sub w).2 = (trace w ++ evs)%list /\
              forallb is_draw evs = true.
Proof.
  intros Hc. unfold Datasets.read.
  rewrite (bind_Ok_eq _ _ w w true)
    by (unfold os_path_exists; by rewrite bool_decide_eq_true_2).
  simpl negb. cbv iota.
  revert w Hc. 
  assert (Hq : quiet (
    run ret ();
    do data <- np_load (data_path dataset);
    do labels <- np_load (labels_path dataset);
    do dl <- match sub with
             | Some s =>
                 do n <- lift (shape0 data);
                 if (s <? Z.of_nat n)%Z
                 then subsampled round_f32 entropy data labels s n
                 else ret (data, labels)
             | None => ret (data, labels)
             end;
    do data' <- match mode with
                | Some mode0 => lift (normalize dl.1 mode0)
                | None => ret dl.1
                end;
    ret (asarray round_f32 data' float32, asarray round_f32 (squeeze dl.2) uint8))).
  { repeat first [ apply quiet_lift | apply quiet_ret | apply quiet_np_load
                 | apply quiet_subsampled
                 | apply quiet_bind; [|intros ?]
                 | match goal with
                   | |- quiet (match ?x with _ => _ end) => destruct x
                   end ]. }
  intros w _. apply Hq.
Qed.

(** *** Well-formed arrays *)

Lemma wf_asarray (a : ndarray) (dt : dtype) : wf (asarray round_f32 a dt) = wf a.
Proof. unfold wf, asarray. simpl. by rewrite length_map. Qed.

Lemma prod_shape_app (s1 s2 : list nat) :
  prod_shape (s1 ++ s2) = (prod_shape s1 * prod_shape s2)%nat.
Proof. induction s1 as [|d s1 IH]; simpl; [lia|]. rewrite IH. lia. Qed.

Lemma prod_shape_rev (s : list nat) : prod_shape (rev s) = prod_shape s.
Proof.
  induction s as [|d s IH]; simpl; [done|].
  rewrite prod_shape_app, IH. simpl. lia.
Qed.

Lemma length_indices (s : list nat) : length (indices s) = prod_shape s.
Proof.
  induction s as [|n s IH]; simpl; [done|].
  generalize 0%nat. induction n as [|n IHn]; intros start; simpl; [done|].
  rewrite length_app, length_fmap, IH, IHn. done.
Qed.

Lemma wf_transpose (a : ndarray) : wf a = true -> wf (transpose a) = true.
Proof.
  unfold wf, transpose. simpl. intros _. apply bool_decide_eq_true_2.
  by rewrite length_fmap, length_indices.
Qed.

Lemma dict_literal_elem {V} (items : list (string * V)) (k : string) (v : V) :
  dict_literal items !! k = Some v -> (k, v) ∈ items.
Proof.
  unfold dict_literal.
  assert (Hgen : forall m : gmap string V,
             foldl (fun m kv => <[kv.1 := kv.2]> m) m items !! k = Some v ->
             m !! k = Some v \/ (k, v) ∈ items).
  { induction items as [|[k' v'] items IH]; intros m H; simpl in *.
    - by left.
    - destruct (IH _ H) as [Hm | Hin]; [|right; by right].
      destruct (decide (k' = k)) as [->|Hne].
      + rewrite lookup_insert_eq in Hm. injection Hm as ->. right. left.
      + rewrite lookup_insert_ne in Hm by done. by left. }
  intros H. destruct (Hgen ∅ H) as [Hm | Hin]; [|done].
  by rewrite lookup_empty in Hm.
Qed.

Lemma all_wf_elem (vars : list (string * ndarray)) (k : string) (v : ndarray) :
  all_wf vars = true -> (k, v) ∈ vars -> wf v = true.
Proof.
  unfold all_wf. rewrite forallb_forall. intros H Hin.
  apply (H (k, v)). by apply list_elem_of_In.
Qed.

Lemma load_data_dict_wf (filename : string) (w w' : world)
    (d : gmap string ndarray) (k : string) (v : ndarray) :
  load_data_dict round_f32 filename w = (Ok d, w') ->
  d !! k = Some v -> wf v = true.
Proof.
  unfold load_data_dict.
  destruct (fs w !! filename) as [[|[vars|items|]|]|]; try discriminate.
  - destruct (all_wf vars) eqn:Hwf; [|discriminate].
    intros H Hk. injection H as <- <-.
    eapply all_wf_elem; [done|]. by eapply dict_literal_elem.
  - destruct (all_wf items) eqn:Hwf; [|discriminate].
    intros H Hk. injection H as <- <-. revert Hk.
    assert (Hgen : forall m : gmap string ndarray,
      (forall v', m !! k = Some v' -> wf v' = true) ->
      foldl (fun d kv => if list_contains ["X"; "y"] kv.1
                         then <[kv.1 := transpose (asarray round_f32 kv.2 float64)]> d
                         else d) m items !! k = Some v -> wf v = true).
    { clear -Hwf. induction items as [|[k' v'] items IH]; intros m Hm; simpl.
      - apply Hm.
      - simpl in Hwf. apply andb_true_iff in Hwf as [Hv' Hrest].
        apply IH; [done|]. intros v0.
        destruct (list_contains ["X"; "y"] k'); [|apply Hm].
        simpl. destruct (decide (k' = k)) as [->|Hne].
        + rewrite lookup_insert_eq. intros H. injection H as <-.
          apply wf_transpose. by rewrite wf_asarray.
        + rewrite lookup_insert_ne by done. apply Hm. }
    apply Hgen. intros v'. by rewrite lookup_empty.
Qed.

(** *** What a successful [get] leaves behind *)

Lemma get_Ok_cache (dataset : string) (w w' : world) :
  get dataset w = (Ok tt, w') ->
  exists X y : ndarray,
    wf X = true /\ wf y = true /\
    fs w' !! data_path dataset = Some (NpyFile (asarray round_f32 X float32)) /\
    fs w' !! labels_path dataset = Some (NpyFile (asarray round_f32 y uint8)) /\
    saves_to (data_path dataset) (trace w') = S (saves_to (data_path dataset) (trace w)) /\
    saves_to (labels_path dataset) (trace w') = S (saves_to (labels_path dataset) (trace w)).
Proof.
  intros H.
  destruct (get_Ok_inv _ _ _ H) as (w3 & pre & d & X & y & Hreg & Htr & Hpre & _ & Hload & HX & Hy & ->).
  pose proof (cache_paths_distinct dataset Hreg) as Hne.
  exists X, y. simpl.
  split; [by eapply load_data_dict_wf|]. split; [by eapply load_data_dict_wf|].
  split; [by rewrite lookup_insert_ne, lookup_insert_eq|].
  split; [by rewrite lookup_insert_eq|].
  assert (Hpre0 : forall path, List.filter (is_save path) pre = []).
  { intros path. clear -Hpre. induction pre as [|e pre IH]; simpl; [done|].
    simpl in Hpre. apply andb_true_iff in Hpre as [He Hpre].
    destruct e; try discriminate; simpl; by apply IH. }
  unfold saves_to. rewrite Htr, !List.filter_app, !Hpre0, !length_app. simpl.
  repeat case_bool_decide; try done; simpl; lia.
Qed.

(** *** The steps of a successful [read] *)

Lemma np_load_Ok (path : string) (w w' : world) (a : ndarray) :
  np_load path w = (Ok a, w') ->
  fs w !! path = Some (NpyFile a) /\ wf a = true /\ w' = w.
Proof.
  unfold np_load. destruct (fs w !! path) as [[| |a']|]; try discriminate.
  destruct (wf a') eqn:Hwf; [|discriminate]. intros H. by injection H as <- <-.
Qed.

Lemma read_Ok_inv (dataset : string) (mode : option string) (sub : option Z)
    (w w' : world) (X y : ndarray) :
  read dataset mode sub w = (Ok (X, y), w') ->
  exists (w1 : world) (data labels : ndarray) (dl : ndarray * ndarray),
    (is_Some (fs w !! data_path dataset) /\ w1 = w \/
     fs w !! data_path dataset = None /\ get dataset w = (Ok tt, w1)) /\
    fs w1 !! data_path dataset = Some (NpyFile data) /\ wf data = true /\
    fs w1 !! labels_path dataset = Some (NpyFile labels) /\ wf labels = true /\
    (if subsampling_applies sub data
     then exists s, sub = Some s /\
          subsampled round_f32 entropy data labels s (n_rows data) w1 = (Ok dl, w')
     else dl = (data, labels) /\ w' = w1) /\
    match mode with
    | None => X = asarray round_f32 dl.1 float32
    | Some m => exists d', normalize dl.1 m = Ok d' /\ X = asarray round_f32 d' float32
    end /\
    y = asarray round_f32 (squeeze dl.2) uint8.
Proof.
  unfold Datasets.read. intros H.
  apply bind_Ok_inv in H as (cached & w0 & Hc & H).
  unfold os_path_exists in Hc. injection Hc as <- <-.
  apply bind_Ok_inv in H as ([] & w1 & Hget & H).
  apply bind_Ok_inv in H as (data & w2 & Hd & H).
  apply np_load_Ok in Hd as (Hd & Hwd & ->).
  apply bind_Ok_inv in H as (labels & w2 & Hl & H).
  apply np_load_Ok in Hl as (Hl & Hwl & ->).
  apply bind_Ok_inv in H as (dl & w2 & Hsub & H).
  apply bind_Ok_inv in H as (data' & w3 & Hnorm & H).
  apply ret_Ok_inv in H as [H ->]. injection H as -> ->.
  assert (Hmode : w3 = w2 /\
                  match mode with
                  | None => data' = dl.1
                  | Some m => normalize dl.1 m = Ok data'
                  end).
  { destruct mode as [m|].
    - by apply lift_Ok_inv in Hnorm as [Hnorm ->].
    - by apply ret_Ok_inv in Hnorm as [-> ->]. }
  destruct Hmode as [-> Hmode].
  exists w1, data, labels, dl.
  split.
  { destruct (decide (is_Some (fs w !! data_path dataset))) as [Hs|Hn].
    - rewrite bool_decide_eq_true_2 in Hget by done. simpl in Hget.
      apply ret_Ok_inv in Hget as [_ ->]. by left.
    - rewrite bool_decide_eq_false_2 in Hget by done. simpl in Hget.
      right. split; [|done]. by apply eq_None_not_Some. }
  do 4 (split; [done|]). split.
  { unfold subsampling_applies, n_rows. destruct sub as [s|].
    - apply bind_Ok_inv in Hsub as (n & w4 & Hn & Hsub).
      apply lift_Ok_inv in Hn as [Hn ->]. unfold shape0 in Hn.
      destruct (shape data) as [|n' rest]; [discriminate|]. injection Hn as ->.
      simpl. destruct (s <? Z.of_nat n)%Z.
      + by exists s.
      + by apply ret_Ok_inv in Hsub as [-> ->].
    - by apply ret_Ok_inv in Hsub as [-> ->]. }
  split; [|done].
  destruct mode as [m|].
  - by exists data'.
  - by rewrite Hmode.
Qed.

(** With both cache files in place and no effective subsampling, [read]
    loads the two arrays and returns them whole, leaving the world as it
    was. *)
Lemma read_cached_whole (dataset : string) (mode : option string) (sub : option Z)
    (w : world) (data labels : ndarray) :
  fs w !! data_path dataset = Some (NpyFile data) ->
  fs w !! labels_path dataset = Some (NpyFile labels) ->
  wf data = true -> wf labels = true ->
  match sub with
  | None => True
  | Some s => exists n rest, shape data = n :: rest /\ (Z.of_nat n <= s)%Z
  end ->
  read dataset mode sub w =
    (match mode with
     | None => Ok (asarray round_f32 data float32,
                   asarray round_f32 (squeeze labels) uint8)
     | Some m =>
         match normalize data m with
         | Ok d => Ok (asarray round_f32 d float32,
                       asarray round_f32 (squeeze labels) uint8)
         | Raise e => Raise e
         end
     end, w).
Proof.
  intros Hd Hl Hwd Hwl Hsub.
  unfold Datasets.read, bind, os_path_exists, np_load, lift, ret, shape0.
  rewrite Hd. rewrite bool_decide_eq_true_2 by eauto. simpl.
  rewrite Hd, Hwd, Hl, Hwl.
  destruct sub as [s|].
  - destruct Hsub as (n & rest & Hsh & Hle). rewrite Hsh.
    destruct (Z.ltb_spec s (Z.of_nat n)); [lia|].
    cbn [fst snd]. destruct mode as [m|]; [destruct (normalize data m)|]; reflexivity.
  - cbn [fst snd]. destruct mode as [m|]; [destruct (normalize data m)|]; reflexivity.
Qed.

Lemma saves_to_draws (path : string) (tr evs : list event) :
  forallb is_draw evs = true ->
  saves_to path (tr ++ evs) = saves_to path tr.
Proof.
  intros H. unfold saves_to. rewrite List.filter_app, length_app.
  assert (Hnil : List.filter (is_save path) evs = []).
  { induction evs as [|e evs IH]; simpl; [done|].
    simpl in H. apply andb_true_iff in H as [He H].
    destruct e; try discriminate. simpl. by apply IH. }
  rewrite Hnil. simpl. lia.
Qed.

(** C2: once the feature file is in place, no call of [read] saves to the
    cache (it does not call [get], and the files stay as they are), while
    every successful call of [get] saves both cache files once more. *)
Theorem cache_saved_by_get_not_by_read (dataset : string) (mode : option string)
    (sub : option Z) (w : world) :
  is_Some (fs w !! data_path dataset) ->
  (fs (read dataset mode sub w).2 = fs w /\
   saves_to (data_path dataset) (trace (read dataset mode sub w).2)
     = saves_to (data_path dataset) (trace w) /\
   saves_to (labels_path dataset) (trace (read dataset mode sub w).2)
     = saves_to (labels_path dataset) (trace w)) /\
  (forall w', get dataset w = (Ok tt, w') ->
     saves_to (data_path dataset) (trace w')
       = S (saves_to (data_path dataset) (trace w)) /\
     saves_to (labels_path dataset) (trace w')
       = S (saves_to (labels_path dataset) (trace w))).
Proof.
  intros Hc. split.
  - destruct (read_cached_quiet dataset mode sub w Hc) as (Hfs & evs & Htr & Hev).
    split; [done|]. rewrite Htr. by rewrite !saves_to_draws.
  - intros w' Hget.
    destruct (get_Ok_cache _ _ _ Hget) as (X & y & _ & _ & _ & _ & Hd & Hl). done.
Qed.

(** C10: with subsample [None] or at least the number of rows, [read]
    performs no draw and changes nothing: it returns the cached features
    and labels whole, all [n] rows of them. *)
Theorem read_without_subsampling (dataset : string) (mode : option string)
    (sub : option Z) (w : world) (data labels : ndarray) (n : nat) (rest : list nat) :
  fs w !! data_path dataset = Some (NpyFile data) ->
  fs w !! labels_path dataset = Some (NpyFile labels) ->
  wf data = true -> wf labels = true ->
  shape data = n :: rest ->
  match sub with None => True | Some s => (Z.of_nat n <= s)%Z end ->
  read dataset mode sub w =
    (match mode with
     | None => Ok (asarray round_f32 data float32,
                   asarray round_f32 (squeeze labels) uint8)
     | Some m =>
         match normalize data m with
         | Ok d => Ok (asarray round_f32 d float32,
                       asarray round_f32 (squeeze labels) uint8)
         | Raise e => Raise e
         end
     end, w) /\
  shape (asarray round_f32 data float32) = n :: rest /\
  length (flat (asarray round_f32 data float32)) = length (flat data) /\
  length (flat (asarray round_f32 (squeeze labels) uint8)) = length (flat labels).
Proof.
  intros Hd Hl Hwd Hwl Hsh Hsub. split.
  - apply read_cached_whole; try done.
    destruct sub as [s|]; [|done]. by exists n, rest.
  - simpl. by rewrite !length_map.
Qed.


Lemma Forall_filter_ne_1 (s : list nat) :
  Forall (fun d => d <> 1%nat) (filter (fun d => d <> 1%nat) s).
Proof.
  apply Forall_forall. intros d Hd. by apply list_elem_of_filter in Hd as [? _].
Qed.

(** C8: a successful [read] returns float32 features and uint8 labels
    from which every axis of length one is gone; after subsampling [k]
    rows the label array has shape [(k,)], except for [k = 1], where it
    has no axis left. *)
Theorem read_dtypes_and_label_shape (dataset : string) (mode : option string)
    (sub : option Z) (w w' : world) (X y : ndarray) :
  read dataset mode sub w = (Ok (X, y), w') ->
  arr_dtype X = float32 /\ arr_dtype y = uint8 /\
  Forall (fun d => d <> 1%nat) (shape y) /\
  exists data labels : ndarray,
    fs w' !! data_path dataset = Some (NpyFile data) /\
    fs w' !! labels_path dataset = Some (NpyFile labels) /\
    shape y = if subsampling_applies sub data
              then (if decide (length (flat y) = 1%nat) then []
                    else [length (flat y)])
              else filter (fun d => d <> 1%nat) (shape labels).
Proof.
  intros Hread.
  destruct (read_Ok_inv _ _ _ _ _ _ _ Hread)
    as (w1 & data & labels & dl & _ & Hd & _ & Hl & Hwl & Hsub & HX & ->).
  split.
  { destruct mode as [m|]; [destruct HX as (d' & _ & ->)|rewrite HX]; done. }
  split; [done|]. split; [apply Forall_filter_ne_1|].
  exists data, labels. simpl. rewrite length_map.
  destruct (subsampling_applies sub data).
  - destruct Hsub as (s & -> & Hsub). destruct dl as [X' y'].
    apply subsampled_Ok in Hsub as (samples & _ & Hsy & Hly & _ & Hrs & Hfs & _).
    rewrite Hfs. split; [done|]. split; [done|].
    simpl. rewrite Hsy, Hly.
    specialize (Hrs Hwl). unfold row_size in Hrs.
    rewrite filter_cons, (prod_shape_one _ Hrs).
    destruct (decide (length samples = 1%nat)) as [Hk|Hk]; by case_decide.
  - by destruct Hsub as [-> ->].
Qed.


End Manager.


Lemma get_unknown_raises_before_effects_witness :
  exists e,
    Datasets.get "data" (fun _ => None) (fun q => q) "iris" (mk_world ∅ [] 0)
      = (Raise e, mk_world ∅ [] 0) /\
    is_lookup_error e = true.
Proof.
  apply (get_unknown_raises_before_effects "data" (fun _ => None) (fun q => q) "iris").
  - by vm_compute.
  - by apply (bool_decide_unpack _); vm_compute.
Defined.

Lemma cache_saved_by_get_not_by_read_witness :
  is_Some (fs wine_world !! "data/wine.npy") /\
  (fs (sample_read "wine" None (Some 2) wine_world).2 = fs wine_world /\
   saves_to "data/wine.npy" (trace (sample_read "wine" None (Some 2) wine_world).2)
     = saves_to "data/wine.npy" (trace wine_world) /\
   saves_to "data/wine_labels.npy" (trace (sample_read "wine" None (Some 2) wine_world).2)
     = saves_to "data/wine_labels.npy" (trace wine_world)) /\
  (forall w', sample_get "wine" wine_world = (Ok tt, w') ->
     saves_to "data/wine.npy" (trace w') = S (saves_to "data/wine.npy" (trace wine_world)) /\
     saves_to "data/wine_labels.npy" (trace w')
       = S (saves_to "data/wine_labels.npy" (trace wine_world))).
Proof.
  assert (H : is_Some (fs wine_world !! "data/wine.npy")) by (vm_compute; eauto).
  split; [exact H|].
  exact (cache_saved_by_get_not_by_read "data" sample_remote no_rounding counter
           no_normalize "wine" None (Some 2) wine_world H).
Defined.

(** C2 as stated fails: the second [get] of a data set saves both cache
    files again. *)
Lemma second_get_saves_again :
  sample_get "wine" wine_world = (Ok tt, (sample_get "wine" wine_world).2) /\
  saves_to "data/wine.npy" (trace wine_world) = 1%nat /\
  saves_to "data/wine.npy" (trace (sample_get "wine" wine_world).2) = 2%nat /\
  saves_to "data/wine_labels.npy" (trace wine_world) = 1%nat /\
  saves_to "data/wine_labels.npy" (trace (sample_get "wine" wine_world).2) = 2%nat.
Proof. by vm_compute. Qed.

Lemma read_without_subsampling_witness :
  sample_read "wine" None (Some 3) wine_world
    = (Ok (asarray no_rounding wine_data float32,
           asarray no_rounding (squeeze wine_labels) uint8), wine_world) /\
  shape (asarray no_rounding wine_data float32) = [3; 2]%nat /\
  length (flat (asarray no_rounding wine_data float32)) = length (flat wine_data) /\
  length (flat (asarray no_rounding (squeeze wine_labels) uint8))
    = length (flat wine_labels).
Proof.
  apply (read_without_subsampling "data" sample_remote no_rounding counter
           no_normalize "wine" None (Some 3%Z) wine_world wine_data wine_labels 3 [2%nat]).
  - by vm_compute.
  - by vm_compute.
  - by vm_compute.
  - by vm_compute.
  - by vm_compute.
  - simpl. lia.
Defined.



Lemma read_dtypes_and_label_shape_witness :
  exists (X y : ndarray) (w' : world),
    sample_read "wine" None (Some 2) wine_world = (Ok (X, y), w') /\
    arr_dtype X = float32 /\ arr_dtype y = uint8 /\
    Forall (fun d => d <> 1%nat) (shape y) /\
    exists data labels : ndarray,
      fs w' !! "data/wine.npy" = Some (NpyFile data) /\
      fs w' !! "data/wine_labels.npy" = Some (NpyFile labels) /\
      shape y = if subsampling_applies (Some 2) data
                then (if decide (length (flat y) = 1%nat) then []
                      else [length (flat y)])
                else filter (fun d => d <> 1%nat) (shape labels).
Proof.
  eexists _, _, _. split; [vm_compute; reflexivity|].
  apply (read_dtypes_and_label_shape "data" sample_remote no_rounding counter
           no_normalize "wine" None (Some 2%Z) wine_world).
  by vm_compute.
Defined.

(** C8 as stated fails: a subsample value of one selects a single row,
    and squeezing its label leaves an array without any axis, not a
    one-dimensional vector. *)
Lemma read_one_sample_label_has_no_axis :
  exists (X y : ndarray) (w' : world),
    sample_read "wine" None (Some 1) wine_world = (Ok (X, y), w') /\
    shape X = [1; 2]%nat /\ shape y = [] /\ length (shape y) <> 1%nat.
Proof.
  eexists _, _, _. split; [vm_compute; reflexivity|]. by vm_compute.
Qed.
End DatasetsProofs.

(** ** The metrics routines *)

Module SklearnProofs.

Import Sklearn.















(** *** The area under the curve *)








Section Area.

Variables n_neg n_pos : Z.
Hypothesis n_neg_pos : (0 < n_neg)%Z.
Hypothesis n_pos_pos : (0 < n_pos)%Z.

Local Abbreviation rate := (rates n_neg n_pos).


End Area.


End SklearnProofs.

(** ** The plotting utilities *)

Module PlotProofs.

Import Plot Byte SklearnProofs.










(** *** Paths of [roc_curve] *)




Lemma lookup_labels_length (true_labels keys y_true : list Z) :
  lookup_labels true_labels keys = Ok y_true -> length y_true = length keys.
Proof.
  revert y_true. induction keys as [|k keys IH]; intros y_true; simpl.
  - intros H. by injection H as <-.
  - destruct (list_getitem true_labels k); [|discriminate].
    destruct (lookup_labels true_labels keys); [|discriminate].
    intros H. injection H as <-. simpl. f_equal. by apply IH.
Qed.

Section Plotting.

Variable PLOTS_PATH : string.
Variable render : string -> pyfloat -> list byte.
Variable umap_fit_transform : ndarray -> Z -> Z -> string -> result (list Z).

Local Abbreviation roc_curve := (Plot.roc_curve PLOTS_PATH render).
Local Abbreviation embed_umap := (Plot.embed_umap umap_fit_transform).
Local Abbreviation csv_path dataset metric method :=
  (os_path_join (_directory PLOTS_PATH dataset metric method) "roc.csv").


(** *** The embedding cache *)





End Plotting.

Import Examples.




End PlotProofs.

Module DatasetsExtra.
Import Datasets Examples DatasetsProofs.

Lemma os_path_join_longer (dir x : string) :
  starts_with_slash x = false -> x <> "" -> os_path_join dir x <> dir.
Proof.
  intros Hx Hne H. apply (f_equal String.length) in H. unfold os_path_join in H.
  rewrite Hx in H.
  assert (0 < String.length x)%nat by (destruct x; [done|simpl; lia]).
  destruct (bool_decide (dir = "") || ends_with_slash dir);
    rewrite !string_app_length in H; simpl in H; lia.
Qed.

Section Manager.

Variable DATA_DIR : string.
Variable remote : string -> option raw_mat.
Variable round_f32 : Q -> Q.
Variable entropy : nat -> nat.
Variable normalize : ndarray -> string -> result ndarray.

Local Abbreviation get := (Datasets.get DATA_DIR remote round_f32).
Local Abbreviation read := (Datasets.read DATA_DIR remote round_f32 entropy normalize).
Local Abbreviation data_path dataset := (os_path_join DATA_DIR (dataset ++ ".npy")).
Local Abbreviation labels_path dataset := (os_path_join DATA_DIR (dataset ++ "_labels.npy")).
Local Abbreviation raw_path dataset := (os_path_join DATA_DIR (dataset ++ ".mat")).

Lemma registry_paths (dataset : string) :
  is_Some (DATASET_LINKS !! dataset) ->
  data_path dataset <> labels_path dataset /\
  raw_path dataset <> data_path dataset /\
  raw_path dataset <> labels_path dataset /\
  raw_path dataset <> DATA_DIR /\
  data_path dataset <> DATA_DIR /\
  labels_path dataset <> DATA_DIR.
Proof.
  intros Hreg. destruct (registry_names_relative dataset Hreg) as (Hd & Hl & Hr).
  assert (Hne : forall suffix, suffix <> "" -> dataset ++ suffix <> "").
  { intros suffix Hs H. destruct dataset; [done|discriminate]. }
  repeat split.
  - by apply cache_paths_distinct.
  - intros H. apply os_path_join_inj in H; [|done..]. by apply string_app_inv_head in H.
  - intros H. apply os_path_join_inj in H; [|done..]. by apply string_app_inv_head in H.
  - apply os_path_join_longer; [done|]. by apply Hne.
  - apply os_path_join_longer; [done|]. by apply Hne.
  - apply os_path_join_longer; [done|]. by apply Hne.
Qed.

Lemma load_data_dict_frame (filename : string) (w w' : world) :
  fs w' !! filename = fs w !! filename ->
  (load_data_dict round_f32 filename w').1 = (load_data_dict round_f32 filename w).1.
Proof.
  intros H. unfold load_data_dict. rewrite H.
  repeat match goal with
         | |- context [match ?x with _ => _ end] => destruct x
         end; done.
Qed.



(** The guarded [os.makedirs] of [get] always completes; it adds the data
    directory when no node has its path, and nothing else. *)
Lemma makedirs_guard (w : world) :
  exists w2 evs,
    (if negb (bool_decide (is_Some (fs w !! DATA_DIR)))
     then os_makedirs DATA_DIR else ret ()) w = (Ok tt, w2) /\
    rng w2 = rng w /\ trace w2 = (trace w ++ evs)%list /\
    (forall e, e ∈ evs -> e = Makedirs DATA_DIR) /\
    (forall p, p <> DATA_DIR -> fs w2 !! p = fs w !! p) /\
    is_Some (fs w2 !! DATA_DIR) /\
    (is_Some (fs w !! DATA_DIR) -> w2 = w).
Proof.
  destruct (decide (is_Some (fs w !! DATA_DIR))) as [Hs|Hn].
  - rewrite bool_decide_eq_true_2 by done. exists w, []. simpl.
    rewrite app_nil_r. split; [done|]. split; [done|]. split; [done|].
    split; [by intros e ?%elem_of_nil|]. by split.
  - rewrite bool_decide_eq_false_2 by done. simpl.
    apply eq_None_not_Some in Hn.
    unfold os_makedirs, bind, log, put_node. simpl. rewrite Hn.
    eexists _, [Makedirs DATA_DIR]. simpl.
    split; [done|]. split; [done|]. split; [done|].
    split; [by intros e ->%list_elem_of_singleton|].
    split; [intros p Hp; simpl; by rewrite lookup_insert_ne|].
    split; [simpl; by rewrite lookup_insert_eq|].
    intros [? Hs]. congruence.
Qed.

(** The guarded download always completes; it runs [wget] only when the
    raw file is absent. *)
Lemma wget_guard (link raw : string) (w : world) :
  exists w3 evs,
    (if negb (bool_decide (is_Some (fs w !! raw)))
     then run_wget remote link raw else ret ()) w = (Ok tt, w3) /\
    rng w3 = rng w /\ trace w3 = (trace w ++ evs)%list /\
    (forall e, e ∈ evs -> e = Wget link raw /\ fs w !! raw = None) /\
    (forall p, p <> raw -> fs w3 !! p = fs w !! p) /\
    (is_Some (fs w !! raw) -> w3 = w) /\
    (fs w !! raw = None ->
     evs = [Wget link raw] /\
     fs w3 = match remote link with
             | Some r => <[raw := MatFile r]> (fs w)
             | None => fs w
             end).
Proof.
  destruct (decide (is_Some (fs w !! raw))) as [Hs|Hn].
  - rewrite bool_decide_eq_true_2 by done. exists w, []. simpl.
    rewrite app_nil_r. split; [done|]. split; [done|]. split; [done|].
    split; [by intros e ?%elem_of_nil|]. split; [done|]. split; [done|].
    intros Hnone. destruct Hs as [? Hs]. congruence.
  - rewrite bool_decide_eq_false_2 by done. simpl.
    apply eq_None_not_Some in Hn.
    unfold run_wget, bind, log, put_node, ret. simpl.
    destruct (remote link); eexists _, [Wget link raw]; simpl;
      (split; [done|]); (split; [done|]); (split; [done|]);
      (split; [by intros e ->%list_elem_of_singleton|]);
      (split; [intros p Hp; simpl; by rewrite ?lookup_insert_ne|]);
      (split; [intros [? Hs]; congruence|]); done.
Qed.

(** The part of [get] after the download check. *)
Local Abbreviation convert dataset :=
  (do data_dict <- load_data_dict round_f32 (raw_path dataset);
   do X <- lift (dict_getitem data_dict "X");
   run np_save (data_path dataset) (asarray round_f32 X float32);
   do y <- lift (dict_getitem data_dict "y");
   np_save (labels_path dataset) (asarray round_f32 y uint8)).

(** [get] on a registry name: the directory and the download first, then
    the conversion when the raw file is there. *)
Lemma get_steps (dataset link : string) (w : world) :
  DATASET_LINKS !! dataset = Some link ->
  exists w3 evs,
    get dataset w
      = (if bool_decide (is_Some (fs w3 !! raw_path dataset))
         then convert dataset w3 else (Raise ValueError, w3)) /\
    rng w3 = rng w /\ trace w3 = (trace w ++ evs)%list /\
    (forall e, e ∈ evs ->
       e = Makedirs DATA_DIR \/
       (e = Wget link (raw_path dataset) /\ fs w !! raw_path dataset = None)) /\
    (forall p, p <> DATA_DIR -> p <> raw_path dataset -> fs w3 !! p = fs w !! p) /\
    is_Some (fs w3 !! DATA_DIR) /\
    (is_Some (fs w !! raw_path dataset) ->
     fs w3 !! raw_path dataset = fs w !! raw_path dataset /\
     forall e, e ∈ evs -> e = Makedirs DATA_DIR) /\
    (fs w !! raw_path dataset = None ->
     Wget link (raw_path dataset) ∈ evs /\
     fs w3 !! raw_path dataset = MatFile <$> remote link) /\
    (is_Some (fs w !! DATA_DIR) -> is_Some (fs w !! raw_path dataset) -> w3 = w).
Proof.
  intros Hlink.
  assert (Hreg : is_Some (DATASET_LINKS !! dataset)) by eauto.
  destruct (registry_paths dataset Hreg) as (_ & _ & _ & Hraw & _).
  destruct (makedirs_guard w)
    as (w2 & evs2 & Hmk & Hrng2 & Htr2 & Hev2 & Hfs2 & Hdir2 & Hsame2).
  destruct (wget_guard link (raw_path dataset) w2)
    as (w3 & evs3 & Hwg & Hrng3 & Htr3 & Hev3 & Hfs3 & Hsame3 & Hnew3).
  assert (Hraw2 : fs w2 !! raw_path dataset = fs w !! raw_path dataset) by (by apply Hfs2).
  exists w3, (evs2 ++ evs3)%list.
  split.
  { unfold Datasets.get.
    rewrite (bind_Ok_eq _ _ w w link) by (unfold lift, dict_getitem; by rewrite Hlink).
    rewrite (bind_Ok_eq _ _ w w (bool_decide (is_Some (fs w !! DATA_DIR)))) by done.
    rewrite (bind_Ok_eq _ _ _ _ _ Hmk).
    rewrite (bind_Ok_eq _ _ w2 w2 (bool_decide (is_Some (fs w2 !! raw_path dataset)))) by done.
    rewrite (bind_Ok_eq _ _ _ _ _ Hwg).
    rewrite (bind_Ok_eq _ _ w3 w3 (bool_decide (is_Some (fs w3 !! raw_path dataset)))) by done.
    destruct (bool_decide (is_Some (fs w3 !! raw_path dataset))); [|done].
    unfold dict_contains. rewrite Hlink.
    by rewrite bool_decide_eq_true_2 by eauto. }
  split; [congruence|]. split; [by rewrite Htr3, Htr2, app_assoc|].
  split.
  { intros e [He|He]%elem_of_app; [left; by apply Hev2|right].
    destruct (Hev3 e He) as [-> Hn]. split; [done|congruence]. }
  split; [intros p H1 H2; by rewrite Hfs3, Hfs2|].
  split.
  { destruct (decide (DATA_DIR = raw_path dataset)) as [Heq|Hne]; [by destruct Hraw|].
    by rewrite Hfs3. }
  split.
  - intros Hs. rewrite <- Hraw2 in Hs. rewrite (Hsame3 Hs). split; [done|].
    intros e [He|He]%elem_of_app; [by apply Hev2|].
    destruct (Hev3 e He) as [_ Hn]. destruct Hs as [? Hs]. congruence.
  - split.
    + intros Hn. rewrite <- Hraw2 in Hn. destruct (Hnew3 Hn) as [-> Hfs].
      split; [apply elem_of_app; right; left|].
      rewrite Hfs. destruct (remote link); simpl; [by rewrite lookup_insert_eq|done].
    + intros Hd Hr. pose proof (Hsame2 Hd) as ->. by apply Hsame3.
Qed.




Lemma convert_Ok (dataset : string) (w w' : world) :
  convert dataset w = (Ok tt, w') ->
  exists (d : gmap string ndarray) (X y : ndarray),
    load_data_dict round_f32 (raw_path dataset) w = (Ok d, w) /\
    d !! "X" = Some X /\ d !! "y" = Some y /\
    w' = {| fs := <[labels_path dataset := NpyFile (asarray round_f32 y uint8)]>
                    (<[data_path dataset := NpyFile (asarray round_f32 X float32)]> (fs w));
            trace := ((trace w ++ [NpSave (data_path dataset)]) ++
                      [NpSave (labels_path dataset)])%list;
            rng := rng w |}.
Proof.
  intros H.
  apply bind_Ok_inv in H as (d & w4 & Hload & H).
  pose proof (load_data_dict_world _ _ _ _ _ Hload) as ->.
  apply bind_Ok_inv in H as (X & w4 & HX & H).
  apply lift_Ok_inv in HX as [HX ->].
  apply bind_Ok_inv in H as ([] & w4 & Hsx & H).
  apply bind_Ok_inv in H as (y & w5 & Hy & H).
  apply lift_Ok_inv in Hy as [Hy ->].
  exists d, X, y. split; [done|].
  unfold dict_getitem in HX, Hy.
  destruct (d !! "X") as [X'|]; [injection HX as ->|discriminate].
  destruct (d !! "y") as [y'|]; [injection Hy as ->|discriminate].
  split; [done|]. split; [done|].
  unfold np_save, bind, log, put_node in Hsx, H. simpl in Hsx, H.
  destruct (fs w !! data_path dataset) as [[| |]|]; try discriminate;
    injection Hsx as <-; simpl in H;
    destruct (<[data_path dataset:=NpyFile (asarray round_f32 X float32)]> (fs w)
                !! labels_path dataset) as [[| |]|]; try discriminate;
    by injection H as <-.
Qed.

(** X4: a second [get] neither makes the directory nor downloads again: it
    parses the same raw file and saves the same two arrays, so the files
    are what they were after the first call. *)
Theorem get_twice_same_files (dataset : string) (w w1 : world) :
  get dataset w = (Ok tt, w1) ->
  get dataset w1
    = (Ok tt, {| fs := fs w1;
                 trace := (trace w1 ++ [NpSave (data_path dataset);
                                        NpSave (labels_path dataset)])%list;
                 rng := rng w1 |}).
Proof.
  intros Hget.
  destruct (get_Ok_inv _ _ _ _ _ _ Hget) as (_ & _ & _ & _ & _ & [link Hlink] & _).
  destruct (registry_paths dataset ltac:(eauto)) as (Hdl & Hrd & Hrl & Hr & Hd & Hl).
  (* the first call found or made the directory and the raw file *)
  destruct (get_steps dataset link w Hlink)
    as (w3' & evs & Hget' & _ & _ & _ & _ & Hdir & _).
  rewrite Hget in Hget'.
  destruct (bool_decide (is_Some (fs w3' !! raw_path dataset))) eqn:Hraw3;
    [|discriminate].
  apply bool_decide_eq_true in Hraw3. symmetry in Hget'.
  destruct (convert_Ok _ _ _ Hget') as (d' & X' & y' & Hload' & HX' & Hy' & Hw1').
  assert (Hdir1 : is_Some (fs w1 !! DATA_DIR)).
  { rewrite Hw1'. simpl. by rewrite !lookup_insert_ne. }
  assert (Hraw1 : fs w1 !! raw_path dataset = fs w3' !! raw_path dataset).
  { rewrite Hw1'. simpl. by rewrite !lookup_insert_ne. }
  (* the second call *)
  destruct (get_steps dataset link w1 Hlink)
    as (w4 & evs4 & Hget4 & _ & _ & _ & _ & _ & _ & _ & Hsame).
  rewrite (Hsame Hdir1) in Hget4 by (by rewrite Hraw1). clear Hsame.
  rewrite Hget4, bool_decide_eq_true_2 by (by rewrite Hraw1).
  assert (Hload1 : load_data_dict round_f32 (raw_path dataset) w1 = (Ok d', w1)).
  { pose proof (load_data_dict_frame (raw_path dataset) w3' w1 Hraw1) as Hf.
    destruct (load_data_dict round_f32 (raw_path dataset) w1) as [r w5] eqn:Hld.
    pose proof (load_data_dict_world _ _ _ _ _ Hld) as ->.
    rewrite Hload' in Hf. simpl in Hf. by rewrite Hf. }
  rewrite (bind_Ok_eq _ _ _ _ _ Hload1).
  rewrite (bind_Ok_eq _ _ w1 w1 X') by (unfold lift, dict_getitem; by rewrite HX').
  assert (Hdp : fs w1 !! data_path dataset = Some (NpyFile (asarray round_f32 X' float32))).
  { rewrite Hw1'. simpl. by rewrite lookup_insert_ne, lookup_insert_eq. }
  assert (Hlp : fs w1 !! labels_path dataset = Some (NpyFile (asarray round_f32 y' uint8))).
  { rewrite Hw1'. simpl. by rewrite lookup_insert_eq. }
  unfold np_save, bind, log, put_node, lift, dict_getitem. simpl.
  rewrite Hdp. simpl. rewrite Hy'. simpl.
  rewrite lookup_insert_ne by done. rewrite Hlp. simpl.
  f_equal. f_equal.
  - rewrite (insert_id (fs w1) (data_path dataset)) by done.
    by rewrite insert_id.
  - by rewrite <- app_assoc.
Qed.

(** X5: a raw file that parses but holds no variable [y] makes [get] raise
    [KeyError] after the feature file has been saved: the label file is
    left as it was, and a later [read] finds the feature file, skips
    [get], and fails on the missing label file. *)
Theorem get_without_labels_leaves_half_cache (dataset : string) (w : world)
    (d : gmap string ndarray) (X : ndarray) :
  is_Some (DATASET_LINKS !! dataset) ->
  load_data_dict round_f32 (raw_path dataset) w = (Ok d, w) ->
  d !! "X" = Some X -> d !! "y" = None ->
  fs w !! data_path dataset <> Some Dir ->
  exists w',
    get dataset w = (Raise KeyError, w') /\
    fs w' !! data_path dataset = Some (NpyFile (asarray round_f32 X float32)) /\
    fs w' !! labels_path dataset = fs w !! labels_path dataset /\
    saves_to (data_path dataset) (trace w') = S (saves_to (data_path dataset) (trace w)) /\
    saves_to (labels_path dataset) (trace w') = saves_to (labels_path dataset) (trace w) /\
    (fs w !! labels_path dataset = None ->
     forall mode sub, read dataset mode sub w' = (Raise OSError, w')).
Proof.
  intros Hreg Hload HX Hy Hnd.
  destruct (registry_paths dataset Hreg) as (Hdl & Hrd & Hrl & Hr & Hd & Hl).
  destruct Hreg as [link Hlink].
  assert (Hraw : is_Some (fs w !! raw_path dataset)).
  { unfold load_data_dict in Hload. destruct (fs w !! raw_path dataset); [eauto|discriminate]. }
  destruct (get_steps dataset link w Hlink)
    as (w3 & evs & Hget & Hrng & Htr & Hev & Hfs & Hdir & Hold & _ & _).
  destruct (Hold Hraw) as [Hraw3 Hmk].
  rewrite bool_decide_eq_true_2 in Hget by (by rewrite Hraw3).
  assert (Hload3 : load_data_dict round_f32 (raw_path dataset) w3 = (Ok d, w3)).
  { pose proof (load_data_dict_frame (raw_path dataset) w w3 Hraw3) as Hf.
    destruct (load_data_dict round_f32 (raw_path dataset) w3) as [r w5] eqn:Hld.
    pose proof (load_data_dict_world _ _ _ _ _ Hld) as ->.
    rewrite Hload in Hf. simpl in Hf. by rewrite Hf. }
  rewrite (bind_Ok_eq _ _ _ _ _ Hload3) in Hget.
  rewrite (bind_Ok_eq _ _ w3 w3 X) in Hget by (unfold lift, dict_getitem; by rewrite HX).
  assert (Hdp3 : fs w3 !! data_path dataset = fs w !! data_path dataset)
    by (apply Hfs; congruence).
  assert (Hlp3 : fs w3 !! labels_path dataset = fs w !! labels_path dataset)
    by (apply Hfs; congruence).
  assert (Hnil : forall path, List.filter (is_save path) evs = []).
  { intros path. clear -Hmk. induction evs as [|e evs IH]; [done|]. simpl.
    rewrite (Hmk e ltac:(left)). simpl. apply IH. intros e' He'. apply Hmk. by right. }
  set (w' := {| fs := <[data_path dataset := NpyFile (asarray round_f32 X float32)]> (fs w3);
                trace := (trace w3 ++ [NpSave (data_path dataset)])%list;
                rng := rng w3 |}).
  assert (Hres : get dataset w = (Raise KeyError, w')).
  { rewrite Hget. unfold np_save, bind, log, put_node, lift, dict_getitem. simpl.
    rewrite Hdp3, Hy.
    destruct (fs w !! data_path dataset) as [[| |]|]; done. }
  exists w'. split; [done|].
  assert (Hdp' : fs w' !! data_path dataset = Some (NpyFile (asarray round_f32 X float32)))
    by (simpl; by rewrite lookup_insert_eq).
  assert (Hlp' : fs w' !! labels_path dataset = fs w !! labels_path dataset)
    by (simpl; by rewrite lookup_insert_ne).
  split; [done|]. split; [done|].
  split.
  { unfold saves_to. simpl. rewrite Htr, !List.filter_app, Hnil, app_nil_r. simpl.
    rewrite bool_decide_eq_true_2 by done. rewrite length_app. simpl. lia. }
  split.
  { unfold saves_to. simpl. rewrite Htr, !List.filter_app, Hnil, app_nil_r. simpl.
    rewrite bool_decide_eq_false_2 by done. by rewrite app_nil_r. }
  intros Hnone mode sub.
  assert (HwfX : wf (asarray round_f32 X float32) = true).
  { rewrite wf_asarray. eapply load_data_dict_wf; eauto. }
  unfold read, bind, os_path_exists, np_load.
  rewrite bool_decide_eq_true_2 by (rewrite Hdp'; eauto).
  cbn [negb ret]. rewrite Hdp', HwfX, Hlp', Hnone. done.
Qed.

(** X6: when the feature file is missing, [read] is [get] followed by the
    rest of [read]: a failure of [get] is the failure of [read], and after
    a successful [get] the feature file is there, so that [read] continues
    as on a cached data set. *)
Theorem read_uncached_runs_get (dataset : string) (mode : option string)
    (sub : option Z) (w : world) :
  fs w !! data_path dataset = None ->
  match get dataset w with
  | (Ok _, w1) =>
      is_Some (fs w1 !! data_path dataset) /\
      read dataset mode sub w = read dataset mode sub w1
  | (Raise e, w1) => read dataset mode sub w = (Raise e, w1)
  end.
Proof.
  intros Hnone.
  destruct (get dataset w) as [[[]|e] w1] eqn:Hget.
  - destruct (get_Ok_cache _ _ _ _ _ _ Hget) as (X & y & _ & _ & Hdp & _).
    split; [rewrite Hdp; eauto|].
    unfold read, bind, os_path_exists.
    rewrite (bool_decide_eq_false_2 (is_Some (fs w !! data_path dataset)))
      by (rewrite Hnone; by intros [? ?]).
    rewrite (bool_decide_eq_true_2 (is_Some (fs w1 !! data_path dataset)))
      by (rewrite Hdp; eauto).
    cbn [negb ret]. by rewrite Hget.
  - unfold read, bind, os_path_exists.
    rewrite (bool_decide_eq_false_2 (is_Some (fs w !! data_path dataset)))
      by (rewrite Hnone; by intros [? ?]).
    cbn [negb]. by rewrite Hget.
Qed.

End Manager.



Lemma get_twice_same_files_witness :
  sample_get "wine" wine_world
    = (Ok tt, {| fs := fs wine_world;
                 trace := (trace wine_world ++ [NpSave "data/wine.npy";
                                                NpSave "data/wine_labels.npy"])%list;
                 rng := rng wine_world |}).
Proof.
  apply (get_twice_same_files "data" sample_remote no_rounding "wine" empty_world wine_world).
  by vm_compute.
Defined.

Lemma get_without_labels_leaves_half_cache_witness :
  exists w',
    sample_get "wine" unlabeled_world = (Raise KeyError, w') /\
    fs w' !! "data/wine.npy" = Some (NpyFile (asarray no_rounding sample_X float32)) /\
    fs w' !! "data/wine_labels.npy" = fs unlabeled_world !! "data/wine_labels.npy" /\
    saves_to "data/wine.npy" (trace w') = S (saves_to "data/wine.npy" (trace unlabeled_world)) /\
    saves_to "data/wine_labels.npy" (trace w')
      = saves_to "data/wine_labels.npy" (trace unlabeled_world) /\
    (fs unlabeled_world !! "data/wine_labels.npy" = None ->
     forall mode sub, sample_read "wine" mode sub w' = (Raise OSError, w')).
Proof.
  apply (get_without_labels_leaves_half_cache "data" sample_remote no_rounding counter
           no_normalize "wine" unlabeled_world (dict_literal [("X", sample_X)]) sample_X);
    first [by vm_compute | vm_compute; eauto].
Defined.

Lemma read_uncached_runs_get_witness :
  fs empty_world !! "data/wine.npy" = None /\
  match sample_get "wine" empty_world with
  | (Ok _, w1) =>
      is_Some (fs w1 !! "data/wine.npy") /\
      sample_read "wine" None (Some 2) empty_world = sample_read "wine" None (Some 2) w1
  | (Raise e, w1) => sample_read "wine" None (Some 2) empty_world = (Raise e, w1)
  end.
Proof.
  split; [by vm_compute|].
  apply (read_uncached_runs_get "data" sample_remote no_rounding counter no_normalize
           "wine" None (Some 2) empty_world).
  by vm_compute.
Defined.

End DatasetsExtra.

(** ** Subsampling *)

Module SamplingExtra.

Import Datasets Examples DatasetsProofs.




Section Sampling.

Variable round_f32 : Q -> Q.
Variable entropy : nat -> nat.







End Sampling.


End SamplingExtra.

(** ** The name tables and the HDF5 fallback *)

Module RegistryExtra.

Import Datasets Examples DatasetsProofs.

Lemma dict_literal_is_Some {V} (items : list (string * V)) (k : string) :
  is_Some (dict_literal items !! k) <-> k ∈ items.*1.
Proof.
  split.
  - intros [v Hv]. by eapply dict_literal_keys.
  - unfold dict_literal.
    assert (Hgen : forall m : gmap string V,
               is_Some (m !! k) \/ k ∈ items.*1 ->
               is_Some (foldl (fun m kv => <[kv.1 := kv.2]> m) m items !! k)).
    { induction items as [|[k' v'] items IH]; intros m H; simpl in *.
      - destruct H as [H|H]; [done|]. by apply elem_of_nil in H.
      - apply IH. destruct H as [H|H].
        + left. destruct (decide (k' = k)) as [->|Hne].
          * rewrite lookup_insert_eq. eauto.
          * by rewrite lookup_insert_ne.
        + apply elem_of_cons in H as [->|H]; [|by right].
          left. rewrite lookup_insert_eq. eauto. }
    intros H. apply Hgen. by right.
Qed.

(** X8: [DATASET_NAMES] lists every downloadable name and then every other
    name, none of them twice; no name is both downloadable and other; and
    the names with a short name are exactly the listed names. *)
Theorem dataset_names_table :
  NoDup DATASET_NAMES /\
  (forall name, name ∈ DATASET_NAMES <->
                is_Some (DATASET_LINKS !! name) \/ name ∈ OTHER_DATASETS) /\
  (forall name, is_Some (DATASET_LINKS !! name) -> name ∉ OTHER_DATASETS) /\
  (forall name, name ∈ DATASET_NAMES <-> is_Some (SHORT_NAMES !! name)).
Proof.
  assert (Hnd : NoDup DATASET_NAMES) by (apply (bool_decide_unpack _); by vm_compute).
  split; [done|].
  assert (Hnames : forall name, name ∈ DATASET_NAMES <->
                     is_Some (DATASET_LINKS !! name) \/ name ∈ OTHER_DATASETS).
  { intros name. unfold DATASET_NAMES, DATASET_LINKS.
    rewrite elem_of_app, dict_literal_is_Some. done. }
  split; [done|]. split.
  - intros name Hl Ho. unfold DATASET_NAMES in Hnd.
    apply NoDup_app in Hnd as (_ & Hdisj & _).
    apply (Hdisj name); [|done]. by apply dict_literal_is_Some.
  - intros name. unfold SHORT_NAMES. rewrite dict_literal_is_Some.
    assert (H1 : Forall (fun n => n ∈ SHORT_NAMES_items.*1) DATASET_NAMES)
      by (apply (bool_decide_unpack _); by vm_compute).
    assert (H2 : Forall (fun n => n ∈ DATASET_NAMES) (SHORT_NAMES_items.*1))
      by (apply (bool_decide_unpack _); by vm_compute).
    rewrite Forall_forall in H1, H2. split; [apply H1|apply H2].
Qed.

(** *** The HDF5 reader *)

Lemma bind_lookup_block {A} (f : nat -> list A) (L : nat) (start n i j : nat) :
  (forall x, length (f x) = L) -> (i < n)%nat -> (j < L)%nat ->
  (seq start n ≫= f) !! (i * L + j)%nat = f (start + i)%nat !! j.
Proof.
  intros Hlen. revert start i. induction n as [|n IH]; intros start i Hi Hj; [lia|].
  simpl. destruct i as [|i].
  - rewrite Nat.add_0_r. simpl. rewrite lookup_app_l by (rewrite Hlen; lia). done.
  - rewrite lookup_app_r by (rewrite Hlen; simpl; lia).
    rewrite Hlen. replace (S i * L + j - L)%nat with (i * L + j)%nat by (simpl; lia).
    rewrite IH by lia. f_equal. f_equal. lia.
Qed.

(** Element [(i, j)] of the transpose of a matrix is its element [(j, i)]. *)
Lemma transpose_matrix (a : ndarray) (r c i j : nat) :
  shape a = [c; r] -> (i < r)%nat -> (j < c)%nat ->
  shape (transpose a) = [r; c] /\
  flat (transpose a) !! (i * c + j)%nat = Some (nth (j * r + i) (flat a) 0%Q).
Proof.
  intros Hs Hi Hj. unfold transpose. rewrite Hs.
  change (rev [c; r]) with [r; c]. split; [done|].
  cbn [flat]. rewrite list_lookup_fmap.
  change (indices [r; c]) with (seq 0 r ≫= (fun i => (fun t => i :: t) <$> indices [c])).
  rewrite (bind_lookup_block _ c 0 r i j);
    [|intros x; rewrite length_fmap, length_indices; simpl; lia|done|done].
  rewrite list_lookup_fmap.
  change (indices [c]) with (seq 0 c ≫= (fun i => (fun t => i :: t) <$> indices [])).
  replace j with (j * 1 + 0)%nat at 1 by lia.
  rewrite (bind_lookup_block _ 1 0 c j 0); [|done|done|lia].
  simpl. do 2 f_equal. lia.
Qed.

Section Fallback.

Variable round_f32 : Q -> Q.

Lemma fallback_items (items : list (string * ndarray)) (k : string) (v : ndarray) :
  foldl (fun d kv => if list_contains ["X"; "y"] kv.1
                     then <[kv.1 := transpose (asarray round_f32 kv.2 float64)]> d
                     else d) (∅ : gmap string ndarray) items !! k = Some v ->
  (k = "X" \/ k = "y") /\
  exists a, (k, a) ∈ items /\ v = transpose (asarray round_f32 a float64).
Proof.
  assert (Hgen : forall m : gmap string ndarray,
    foldl (fun d kv => if list_contains ["X"; "y"] kv.1
                       then <[kv.1 := transpose (asarray round_f32 kv.2 float64)]> d
                       else d) m items !! k = Some v ->
    m !! k = Some v \/
    ((k = "X" \/ k = "y") /\
     exists a, (k, a) ∈ items /\ v = transpose (asarray round_f32 a float64))).
  { induction items as [|[k' a'] items IH]; intros m H; simpl in *; [by left|].
    destruct (IH _ H) as [Hm | (Hk & a & Hin & Hv)].
    - unfold list_contains in Hm. case_bool_decide as Hxy; [|by left].
      destruct (decide (k' = k)) as [->|Hne].
      + rewrite lookup_insert_eq in Hm. injection Hm as <-. right. split.
        * apply elem_of_cons in Hxy as [->|Hxy]; [by left|].
          apply elem_of_cons in Hxy as [->|Hxy]; [by right|]. by apply elem_of_nil in Hxy.
        * exists a'. split; [left|done].
      + rewrite lookup_insert_ne in Hm by done. by left.
    - right. split; [done|]. exists a. split; [by right|done]. }
  intros H. destruct (Hgen ∅ H) as [Hm|?]; [|done]. by rewrite lookup_empty in Hm.
Qed.

(** X9: for a MATLAB 7.3 file, which only the HDF5 reader parses, the
    dict that [get] works from holds nothing but [X] and [y], each the
    transpose of a stored variable as binary64: the axes are reversed, and
    for a matrix the element at [(i, j)] is the stored element at [(j, i)]. *)
Theorem hdf5_fallback_transposes (filename : string) (items : list (string * ndarray))
    (w : world) (d : gmap string ndarray) (k : string) (v : ndarray) :
  fs w !! filename = Some (MatFile (MatV73 items)) ->
  load_data_dict round_f32 filename w = (Ok d, w) ->
  d !! k = Some v ->
  (k = "X" \/ k = "y") /\
  exists a,
    (k, a) ∈ items /\ wf a = true /\
    arr_dtype v = float64 /\ shape v = rev (shape a) /\
    forall r c i j,
      shape a = [c; r] -> (i < r)%nat -> (j < c)%nat ->
      flat v !! (i * c + j)%nat = Some (nth (j * r + i) (flat a) 0%Q).
Proof.
  unfold load_data_dict. intros ->.
  destruct (all_wf items) eqn:Hwf; [|discriminate].
  intros H Hk. injection H as <-.
  apply fallback_items in Hk as (Hxy & a & Hin & ->).
  split; [done|]. exists a. split; [done|].
  split; [by eapply all_wf_elem|].
  split; [done|]. split; [done|].
  intros r c i j Hs Hi Hj.
  destruct (transpose_matrix (asarray round_f32 a float64) r c i j Hs Hi Hj) as [_ ->].
  f_equal. simpl. change (cast round_f32 float64) with (fun q : Q => q).
  by rewrite map_id.
Qed.

End Fallback.

Lemma hdf5_fallback_transposes_witness :
  exists (d : gmap string ndarray) (v : ndarray),
    fs hdf5_world !! "data/wine.mat" = Some (MatFile (MatV73 hdf5_items)) /\
    load_data_dict no_rounding "data/wine.mat" hdf5_world = (Ok d, hdf5_world) /\
    d !! "X" = Some v /\
    ("X" = "X" \/ "X" = "y") /\
    exists a,
      ("X", a) ∈ hdf5_items /\ wf a = true /\
      arr_dtype v = float64 /\ shape v = rev (shape a) /\
      forall r c i j,
        shape a = [c; r] -> (i < r)%nat -> (j < c)%nat ->
        flat v !! (i * c + j)%nat = Some (nth (j * r + i) (flat a) 0%Q).
Proof.
  eexists _, _. split; [by vm_compute|].
  split; [vm_compute; reflexivity|]. split; [vm_compute; reflexivity|].
  eapply (hdf5_fallback_transposes no_rounding "data/wine.mat" hdf5_items hdf5_world _ "X" _);
    vm_compute; reflexivity.
Defined.

End RegistryExtra.

(** ** More on the plotting utilities *)

Module PlotExtra.

Import Figures Plot Byte SklearnProofs PlotProofs Examples.

Lemma list_getitem_out_of_range (xs : list Z) (k : Z) :
  ~ (- Z.of_nat (length xs) <= k < Z.of_nat (length xs))%Z ->
  list_getitem xs k = Raise IndexError.
Proof.
  intros Hk. unfold list_getitem.
  destruct (Z.ltb_spec k 0);
    destruct (Z.leb_spec 0 (k + Z.of_nat (length xs)));
    destruct (Z.leb_spec 0 k);
    destruct (Z.ltb_spec (k + Z.of_nat (length xs)) (Z.of_nat (length xs)));
    destruct (Z.ltb_spec k (Z.of_nat (length xs))); simpl; try done; lia.
Qed.

Lemma lookup_labels_raises (true_labels keys : list Z) (e : exn) :
  lookup_labels true_labels keys = Raise e -> e = IndexError.
Proof.
  induction keys as [|k keys IH]; simpl; [discriminate|].
  unfold list_getitem at 1.
  destruct (_ && _); [|by intros [= <-]].
  destruct (true_labels !! _); [|by intros [= <-]].
  destruct (lookup_labels true_labels keys); [discriminate|].
  intros [= <-]. by apply IH.
Qed.

Lemma lookup_labels_out_of_range (true_labels keys : list Z) (k : Z) :
  k ∈ keys ->
  ~ (- Z.of_nat (length true_labels) <= k < Z.of_nat (length true_labels))%Z ->
  lookup_labels true_labels keys = Raise IndexError.
Proof.
  intros Hin Hk. induction keys as [|k0 keys IH]; [by apply elem_of_nil in Hin|].
  simpl. apply elem_of_cons in Hin as [<-|Hin].
  - by rewrite list_getitem_out_of_range.
  - destruct (list_getitem true_labels k0) as [y|e] eqn:Hg.
    + by rewrite IH.
    + f_equal. apply (lookup_labels_raises true_labels [k0]). simpl. by rewrite Hg.
Qed.

(** *** The order of the scores in a record *)

Local Abbreviation key_lt := (fun x y : Z * Q => (x.1 < y.1)%Z).





Section Plotting.

Variable PLOTS_PATH : string.
Variable render : string -> pyfloat -> list byte.
Variable umap_fit_transform : ndarray -> Z -> Z -> string -> result (list Z).

Local Abbreviation roc_curve := (Plot.roc_curve PLOTS_PATH render).
Local Abbreviation embed_umap := (Plot.embed_umap umap_fit_transform).
Local Abbreviation directory dataset metric method :=
  (_directory PLOTS_PATH dataset metric method).
Local Abbreviation csv_path dataset metric method :=
  (os_path_join (_directory PLOTS_PATH dataset metric method) "roc.csv").
Local Abbreviation png_path dataset metric method depth :=
  (os_path_join (_directory PLOTS_PATH dataset metric method) (str_of_int depth ++ "-roc.png")).

(** X11: [roc_curve] looks the labels up and computes the area before it
    touches anything: with no scores at all the metrics routine refuses
    the input ([ValueError]), with a key that is no index of the labels
    the lookup fails ([IndexError]); in both cases no directory is made,
    no figure shown or saved and no record written. *)
Theorem roc_curve_rejects_before_effects (true_labels : list Z) (anomalies : list (Z * Q))
    (dataset metric method : string) (depth : Z) (save : bool) (w : world) :
  anomalies = [] \/
  (exists k, k ∈ anomalies.*1 /\
             ~ (- Z.of_nat (length true_labels) <= k < Z.of_nat (length true_labels))%Z) ->
  roc_curve true_labels anomalies dataset metric method depth save w
    = (Raise (if bool_decide (anomalies = []) then ValueError else IndexError), w).
Proof.
  intros [->|(k & Hin & Hk)].
  - done.
  - rewrite bool_decide_eq_false_2 by (intros ->; by apply elem_of_nil in Hin).
    unfold Plot.roc_curve, bind, lift.
    by rewrite (lookup_labels_out_of_range _ _ k Hin Hk).
Qed.









(** *** Computing an embedding *)



(** X14: when UMAP fails on a missing file, its exception is the outcome of
    [embed_umap] and no file is created, so that the next call runs UMAP
    again. *)
Theorem embed_umap_failure_leaves_no_file (data : ndarray) (n_neighbors n_components : Z)
    (metric filename : string) (w : world) (e : exn) :
  fs w !! filename = None ->
  umap_fit_transform data n_neighbors n_components metric = Raise e ->
  let w' := {| fs := fs w; trace := (trace w ++ [UmapFit])%list |} in
  embed_umap data n_neighbors n_components metric filename w = (Raise e, w') /\
  embed_umap data n_neighbors n_components metric filename w'
    = (Raise e, {| fs := fs w; trace := (trace w ++ [UmapFit; UmapFit])%list |}).
Proof.
  intros Hnone Humap w'.
  assert (Hstep : forall w0, fs w0 !! filename = None ->
            embed_umap data n_neighbors n_components metric filename w0
              = (Raise e, {| fs := fs w0; trace := (trace w0 ++ [UmapFit])%list |})).
  { intros w0 H0. unfold Plot.embed_umap, bind, os_path_exists, lift, log.
    rewrite bool_decide_eq_false_2 by (rewrite H0; by intros [? ?]).
    simpl. by rewrite Humap. }
  split; [by apply Hstep|].
  rewrite Hstep by done. simpl. by rewrite <- app_assoc.
Qed.

End Plotting.

Lemma roc_curve_rejects_before_effects_witness :
  sample_roc_curve [0; 0; 1; 1]%Z [(7, 0.5%Q)]%Z empty_plots = (Raise IndexError, empty_plots).
Proof.
  apply (roc_curve_rejects_before_effects "plots" sample_render [0; 0; 1; 1]%Z
           [(7, 0.5%Q)]%Z "wine" "euclidean" "m" 5 true empty_plots).
  right. exists 7%Z. split; [simpl; left|]. simpl. lia.
Defined.



Lemma embed_umap_failure_leaves_no_file_witness :
  let w' := {| fs := fs empty_plots; trace := (trace empty_plots ++ [UmapFit])%list |} in
  Plot.embed_umap failing_umap three_rows 15 2 "euclidean" "emb.bin" empty_plots
    = (Raise ValueError, w') /\
  Plot.embed_umap failing_umap three_rows 15 2 "euclidean" "emb.bin" w'
    = (Raise ValueError,
       {| fs := fs empty_plots; trace := (trace empty_plots ++ [UmapFit; UmapFit])%list |}).
Proof.
  apply (embed_umap_failure_leaves_no_file failing_umap three_rows 15 2 "euclidean"
           "emb.bin" empty_plots ValueError); done.
Defined.

End PlotExtra.

(** ** The figures *)

Module FiguresProofs.

Import Plot Figures Byte Examples.

(** *** The bars of a histogram *)

Lemma foldl_qmax_ge (x : Q) (xs : list Q) :
  (x <= foldl qmax x xs)%Q /\ Forall (fun v => (v <= foldl qmax x xs)%Q) xs.
Proof.
  revert x. induction xs as [|y xs IH]; intros x; simpl.
  - split; [apply Qle_refl|constructor].
  - destruct (IH (qmax x y)) as [Hm Hxs].
    assert (Hx : (x <= qmax x y)%Q /\ (y <= qmax x y)%Q).
    { unfold qmax. destruct (Qle_bool x y) eqn:Hle.
      - apply Qle_bool_iff in Hle. split; [done|apply Qle_refl].
      - split; [apply Qle_refl|]. apply Qlt_le_weak, Qnot_le_lt.
        intros Hc. apply Qle_bool_iff in Hc. congruence. }
    destruct Hx as [Hx Hy]. split; [by eapply Qle_trans|].
    constructor; [by eapply Qle_trans|done].
Qed.

Lemma foldl_qmin_le (x : Q) (xs : list Q) :
  (foldl qmin x xs <= x)%Q /\ Forall (fun v => (foldl qmin x xs <= v)%Q) xs.
Proof.
  revert x. induction xs as [|y xs IH]; intros x; simpl.
  - split; [apply Qle_refl|constructor].
  - destruct (IH (qmin x y)) as [Hm Hxs].
    assert (Hx : (qmin x y <= x)%Q /\ (qmin x y <= y)%Q).
    { unfold qmin. destruct (Qle_bool x y) eqn:Hle.
      - apply Qle_bool_iff in Hle. split; [apply Qle_refl|done].
      - split; [|apply Qle_refl]. apply Qlt_le_weak, Qnot_le_lt.
        intros Hc. apply Qle_bool_iff in Hc. congruence. }
    destruct Hx as [Hx Hy]. split; [by eapply Qle_trans|].
    constructor; [by eapply Qle_trans|done].
Qed.

(** The range of a histogram is not empty and holds every value. *)
Lemma hist_range_encloses (x : list Q) :
  ((hist_range x).1 < (hist_range x).2)%Q /\
  Forall (fun v => ((hist_range x).1 <= v /\ v <= (hist_range x).2)%Q) x.
Proof.
  destruct x as [|v vs]; [split; [done|constructor]|].
  unfold hist_range.
  destruct (foldl_qmax_ge v vs) as [Hv1 Hvs1].
  destruct (foldl_qmin_le v vs) as [Hv0 Hvs0].
  set (lo := foldl qmin v vs) in *. set (hi := foldl qmax v vs) in *.
  assert (Hall : Forall (fun u => (lo <= u /\ u <= hi)%Q) (v :: vs)).
  { constructor; [done|]. rewrite Forall_forall in Hvs0, Hvs1. apply Forall_forall.
    intros u Hu. split; [by apply Hvs0|by apply Hvs1]. }
  destruct (Qeq_bool lo hi) eqn:Heq; simpl.
  - apply Qeq_bool_iff in Heq. split; [lra|].
    eapply Forall_impl; [exact Hall|]. simpl. intros u [? ?]. split; lra.
  - split; [|done].
    apply Qle_lteq in Hv0 as Hlo. assert (Hle : (lo <= hi)%Q) by lra.
    apply Qle_lteq in Hle as [Hlt|He]; [done|].
    apply Qeq_bool_iff in He. congruence.
Qed.

Lemma bin_of_lt (lo hi v : Q) (bins : nat) :
  (0 < bins)%nat -> (lo < hi)%Q -> (v <= hi)%Q -> (bin_of lo hi bins v < bins)%nat.
Proof.
  intros Hb Hlh Hv. unfold bin_of.
  set (t := ((v - lo) / (hi - lo) * inject_Z (Z.of_nat bins))%Q).
  assert (Ht : (t <= inject_Z (Z.of_nat bins))%Q).
  { unfold t. rewrite <- (Qmult_1_l (inject_Z (Z.of_nat bins))) at 2.
    apply Qmult_le_compat_r.
    - apply Qle_shift_div_r; lra.
    - change 0%Q with (inject_Z 0). rewrite <- Zle_Qle. lia. }
  apply Qfloor_resp_le in Ht. rewrite Qfloor_Z in Ht.
  destruct (Nat.eqb_spec (Z.to_nat (Qfloor t)) bins); lia.
Qed.

Lemma count_split (f : Q -> nat) (x : list Q) (n : nat) :
  length (List.filter (fun v => (f v <? S n)%nat) x)
  = (length (List.filter (fun v => (f v <? n)%nat) x)
     + length (List.filter (fun v => (f v =? n)%nat) x))%nat.
Proof.
  induction x as [|v x IH]; simpl; [done|].
  destruct (Nat.ltb_spec (f v) (S n)), (Nat.ltb_spec (f v) n), (Nat.eqb_spec (f v) n);
    simpl; lia.
Qed.

Lemma counts_sum (f : Q -> nat) (x : list Q) (bins : nat) :
  foldr Z.add 0%Z
    ((fun b => Z.of_nat (length (List.filter (fun v => (f v =? b)%nat) x))) <$> seq 0 bins)
  = Z.of_nat (length (List.filter (fun v => (f v <? bins)%nat) x)).
Proof.
  induction bins as [|n IH].
  - simpl. induction x as [|v x IHx]; simpl; [done|]. exact IHx.
  - rewrite seq_S, fmap_app, foldr_app. simpl.
    rewrite count_split, Nat2Z.inj_add, <- IH.
    generalize ((fun b => Z.of_nat (length (List.filter (fun v => (f v =? b)%nat) x)))
                  <$> seq 0 n).
    intros l. rewrite Z.add_0_r.
    generalize (Z.of_nat (length (List.filter (fun v => (f v =? n)%nat) x))). intros c.
    induction l as [|a l IHl]; simpl; lia.
Qed.

Lemma filter_all {A} (p : A -> bool) (x : list A) :
  Forall (fun v => p v = true) x -> List.filter p x = x.
Proof.
  induction 1 as [|v x Hv _ IH]; simpl; [done|]. by rewrite Hv, IH.
Qed.

Lemma foldl_Zmax_ge (c : Z) (cs : list Z) :
  (c <= foldl Z.max c cs)%Z /\ Forall (fun v => (v <= foldl Z.max c cs)%Z) cs.
Proof.
  revert c. induction cs as [|d cs IH]; intros c; simpl; [split; [lia|constructor]|].
  destruct (IH (Z.max c d)) as [Hm Hcs]. split; [lia|]. constructor; [lia|done].
Qed.

Lemma foldl_Zmax_bound (c : Z) (cs : list Z) (b : Z) :
  (c <= b)%Z -> Forall (fun v => (v <= b)%Z) cs -> (foldl Z.max c cs <= b)%Z.
Proof.
  revert c. induction cs as [|d cs IH]; intros c Hc Hcs; simpl; [done|].
  apply Forall_cons in Hcs as [Hd Hcs]. apply IH; [lia|done].
Qed.

Lemma ylim_top_next_ten (m : Z) :
  (ylim_top m == inject_Z (10 * (m / 10 + 1)))%Q.
Proof.
  unfold ylim_top.
  pose proof (Z.div_mod m 10 ltac:(lia)) as Hm.
  pose proof (Z.mod_pos_bound m 10 ltac:(lia)) as Hb.
  destruct (Z.eqb_spec (m mod 10) 0) as [H0|Hn0]; cbn [negb].
  - unfold Qeq, Qplus, inject_Z. cbn [Qnum Qden]. lia.
  - assert (Hc : Qceiling (inject_Z m / 10) = (m / 10 + 1)%Z).
    { unfold Qceiling, Qfloor, Qdiv, Qinv, Qmult, Qopp, inject_Z. cbn [Qnum Qden].
      cbn [Z.opp Pos.mul]. rewrite Z.mul_1_r.
      pose proof (Z.div_mod (- m) 10 ltac:(lia)) as Hm'.
      pose proof (Z.mod_pos_bound (- m) 10 ltac:(lia)) as Hb'.
      change (Z.pos (1 * 10)) with 10%Z. lia. }
    rewrite Hc. unfold Qeq, Qmult, inject_Z. cbn [Qnum Qden]. lia.
Qed.

(** X15: the hundred bars of a histogram account for every value once, and
    the top of the count axis is the least multiple of ten above the
    tallest bar, which is at most the number of values. *)
Theorem histogram_bars_and_axis (x : list Q) :
  let n := hist_counts x 100 in
  let max_freq := counts_max n in
  length n = 100%nat /\
  foldr Z.add 0%Z n = Z.of_nat (length x) /\
  Forall (fun c => (0 <= c <= max_freq)%Z) n /\
  (max_freq <= Z.of_nat (length x))%Z /\
  exists k : Z,
    (ylim_top max_freq == inject_Z (10 * k))%Q /\
    (10 * (k - 1) <= max_freq < 10 * k)%Z.
Proof.
  intros n max_freq. unfold n, hist_counts.
  destruct (hist_range_encloses x) as [Hlt Hall].
  destruct (hist_range x) as [lo hi] eqn:Hr. simpl in Hlt, Hall.
  set (count := fun b => Z.of_nat (length (List.filter
                  (fun v => (bin_of lo hi 100 v =? b)%nat) x))).
  assert (Hlen : length (count <$> seq 0 100) = 100%nat)
    by (by rewrite length_fmap, length_seq).
  split; [done|].
  assert (Hsum : foldr Z.add 0%Z (count <$> seq 0 100) = Z.of_nat (length x)).
  { unfold count. rewrite (counts_sum (bin_of lo hi 100) x 100). f_equal.
    f_equal. apply filter_all. eapply Forall_impl; [exact Hall|]. simpl.
    intros v [_ Hv]. apply Nat.ltb_lt. apply bin_of_lt; [lia|done|done]. }
  split; [done|].
  assert (Hbound : Forall (fun c => (0 <= c <= Z.of_nat (length x))%Z) (count <$> seq 0 100)).
  { apply Forall_fmap, Forall_forall. intros b _. unfold count. simpl.
    pose proof (List.filter_length_le (fun v => (bin_of lo hi 100 v =? b)%nat) x). lia. }
  assert (Hmax : Forall (fun c => (c <= max_freq)%Z) (count <$> seq 0 100) /\
                 (max_freq <= Z.of_nat (length x))%Z).
  { unfold max_freq, n, hist_counts. rewrite Hr. fold count.
    destruct (count <$> seq 0 100) as [|c cs]; [discriminate|].
    simpl. destruct (foldl_Zmax_ge c cs) as [Hc Hcs].
    apply Forall_cons in Hbound as [Hc0 Hcs0]. split; [by constructor|].
    apply foldl_Zmax_bound; [lia|]. eapply Forall_impl; [exact Hcs0|]. simpl. lia. }
  destruct Hmax as [Hmax Hle]. split.
  { rewrite Forall_forall in Hbound, Hmax. apply Forall_forall. intros c Hc.
    specialize (Hbound c Hc). specialize (Hmax c Hc). lia. }
  split; [done|].
  exists (max_freq / 10 + 1)%Z. split; [apply ylim_top_next_ten|].
  pose proof (Z.div_mod max_freq 10 ltac:(lia)).
  pose proof (Z.mod_pos_bound max_freq 10 ltac:(lia)). lia.
Qed.

(** *** Directory names *)

Lemma list_ascii_app (a b : string) :
  list_ascii_of_string (a ++ b) = (list_ascii_of_string a ++ list_ascii_of_string b)%list.
Proof.
  induction a as [|c a IH]; [done|].
  change (c :: list_ascii_of_string (a ++ b)
          = c :: (list_ascii_of_string a ++ list_ascii_of_string b)%list).
  by rewrite IH.
Qed.

Lemma string_of_uint_no_slash (d : Decimal.uint) :
  "/"%char ∉ list_ascii_of_string (NilEmpty.string_of_uint d).
Proof.
  induction d; simpl; try (by intros ?%elem_of_nil);
    (intros [?|?]%elem_of_cons; [discriminate|done]).
Qed.

Lemma str_of_int_no_slash (n : Z) : "/"%char ∉ list_ascii_of_string (str_of_int n).
Proof.
  unfold str_of_int, NilZero.string_of_int, NilZero.string_of_uint.
  destruct (Z.to_int n) as [d|d].
  - destruct d; try apply (string_of_uint_no_slash (_ d)).
    simpl. intros [?|?%elem_of_nil]%elem_of_cons; [discriminate|done].
  - change ("/"%char ∉ "-"%char :: list_ascii_of_string
              match d with Decimal.Nil => "0" | _ => NilEmpty.string_of_uint d end).
    intros [?|H]%elem_of_cons; [discriminate|]. revert H.
    destruct d; try apply (string_of_uint_no_slash (_ d)).
    simpl. intros [?|?%elem_of_nil]%elem_of_cons; [discriminate|done].
Qed.

Lemma drop_until_slash_app (l1 l2 : list ascii) :
  "/"%char ∉ l1 -> drop_until_slash (l1 ++ "/"%char :: l2) = "/"%char :: l2.
Proof.
  induction l1 as [|c l1 IH]; intros H; simpl; [done|].
  apply not_elem_of_cons in H as [Hc H].
  rewrite bool_decide_eq_false_2 by congruence. by apply IH.
Qed.

Lemma ends_with_slash_last (a : string) :
  a <> "" -> ends_with_slash a = false ->
  exists l c, list_ascii_of_string a = (l ++ [c])%list /\ c <> "/"%char.
Proof.
  induction a as [|c a IH]; [done|]. intros _ H.
  destruct a as [|c' a'].
  - exists [], c. split; [done|]. simpl in H. by apply bool_decide_eq_false in H.
  - destruct IH as (l & c0 & Hl & Hc0); [done|exact H|].
    exists (c :: l), c0. split; [|done]. simpl in *. by rewrite Hl.
Qed.

Lemma ends_with_slash_app (a b : string) :
  b <> "" -> ends_with_slash (a ++ b) = ends_with_slash b.
Proof.
  intros Hb. induction a as [|c a IH]; [done|].
  change (ends_with_slash (String c (a ++ b)) = ends_with_slash b).
  destruct (a ++ b) as [|c' s'] eqn:Hab.
  - destruct a; [change (b = "") in Hab; congruence|discriminate].
  - exact IH.
Qed.

(** The directory part of a name [a/b] whose last component has no
    separator is [a], unless [a] ends with a separator. *)
Lemma dirname_join (a b : string) :
  a <> "" -> ends_with_slash a = false ->
  "/"%char ∉ list_ascii_of_string b ->
  dirname (a ++ "/" ++ b) = a.
Proof.
  intros Ha Hend Hb.
  destruct (ends_with_slash_last a Ha Hend) as (l & c & Hl & Hc).
  set (la := list_ascii_of_string a) in *. set (lb := list_ascii_of_string b) in *.
  assert (H1 : list_ascii_of_string (a ++ "/" ++ b) = (la ++ "/"%char :: lb)%list)
    by (by rewrite !list_ascii_app).
  assert (H2 : drop_until_slash (rev (la ++ "/"%char :: lb)) = "/"%char :: rev la).
  { rewrite rev_app_distr. simpl. rewrite <- app_assoc. simpl.
    apply drop_until_slash_app. intros H. apply Hb.
    apply list_elem_of_In. apply in_rev. by apply list_elem_of_In. }
  assert (H3 : rev ("/"%char :: rev la) = (la ++ ["/"%char])%list)
    by (simpl; by rewrite rev_involutive).
  assert (H4 : drop_slashes (rev (la ++ ["/"%char])) = rev la).
  { rewrite rev_app_distr. simpl.
    rewrite Hl, rev_app_distr. simpl. by rewrite bool_decide_eq_false_2. }
  unfold dirname. rewrite H1, H2, H3, H4, rev_involutive.
  rewrite bool_decide_eq_false_2 by (rewrite Hl; by destruct l).
  apply string_of_list_ascii_of_string.
Qed.

Lemma list_ascii_of_string_inj (a b : string) :
  list_ascii_of_string a = list_ascii_of_string b -> a = b.
Proof.
  intros H. rewrite <- (string_of_list_ascii_of_string a), H.
  apply string_of_list_ascii_of_string.
Qed.

Lemma string_app_inv_tail (a b suffix : string) : a ++ suffix = b ++ suffix -> a = b.
Proof.
  intros H. apply list_ascii_of_string_inj.
  apply (f_equal list_ascii_of_string) in H. rewrite !list_ascii_app in H.
  by apply app_inv_tail in H.
Qed.

(** The names of the views of [plot_3d] differ from each other. *)
Lemma view_names_distinct (folder : string) :
  NoDup ((fun azimuth => folder ++ format_03d azimuth ++ ".png") <$> seqZ 0 360).
Proof.
  assert (Hd : NoDup (format_03d <$> seqZ 0 360))
    by (apply (bool_decide_unpack _); by vm_compute).
  assert (Hinj : Inj (=) (=) (fun s : string => folder ++ s ++ ".png")).
  { intros s1 s2 H. apply string_app_inv_head in H. by apply string_app_inv_tail in H. }
  rewrite (list_fmap_compose format_03d (fun s => folder ++ s ++ ".png")).
  by apply (NoDup_fmap_2 _).
Qed.

Lemma floats_of_rows_vector (labels : ndarray) (k m : nat) :
  row_size labels = 1%nat -> (k + m <= length (flat labels))%nat ->
  floats_of_rows labels (seq k m) = Ok (take m (drop k (flat labels))).
Proof.
  intros Hrs. revert k. induction m as [|m IH]; intros k Hk; simpl; [done|].
  destruct (lookup_lt_is_Some_2 (flat labels) k ltac:(lia)) as [x Hx].
  unfold row. rewrite Hrs, Nat.mul_1_r, (drop_S _ _ _ Hx). simpl.
  rewrite IH by lia. done.
Qed.

(** The floats of a vector are its elements. *)
Lemma floats_of_vector (labels : ndarray) (n : nat) :
  shape labels = [n] -> wf labels = true -> floats_of labels = Ok (flat labels).
Proof.
  intros Hs Hwf. unfold floats_of. rewrite Hs.
  apply bool_decide_eq_true in Hwf. rewrite Hs in Hwf. simpl in Hwf.
  rewrite floats_of_rows_vector; [|unfold row_size; by rewrite Hs|lia].
  rewrite drop_0, take_ge by lia. done.
Qed.

Section Drawing.

Variable render : figure -> option Q -> list byte.
Variable scatter_accepts : list (list Q) -> list Q -> sizes -> result unit.
Variable image_file : string -> result string.

Local Abbreviation savefig := (Figures.savefig render image_file).
Local Abbreviation histogram := (Figures.histogram render image_file).
Local Abbreviation scatter := (Figures.scatter render scatter_accepts image_file).
Local Abbreviation plot_2d := (Figures.plot_2d render scatter_accepts image_file).
Local Abbreviation plot_3d := (Figures.plot_3d render scatter_accepts image_file).

Lemma savefig_written (fname : string) (fig : figure) (pad : option Q) (w : world) :
  image_file fname = Ok fname ->
  savefig fname fig pad w
  = match fs w !! fname with
    | Some Dir => (Raise OSError, {| fs := fs w; trace := (trace w ++ [Savefig fname])%list |})
    | _ =>
        if parent_is_dir w fname
        then (Ok tt, {| fs := <[fname := File (render fig pad)]> (fs w);
                        trace := (trace w ++ [Savefig fname])%list |})
        else (Raise OSError, {| fs := fs w; trace := (trace w ++ [Savefig fname])%list |})
    end.
Proof.
  intros Himg. unfold Figures.savefig, bind, log, lift, put_node, parent_is_dir.
  rewrite Himg. simpl.
  destruct (fs w !! fname) as [[|?]|];
    destruct (bool_decide (dirname fname = "") || _); done.
Qed.

(** X16: [histogram] makes no directory.  With [save] set it writes its one
    file into [../data/<dataset>/plots/<metric>/<method>] when that is a
    directory already, and raises [OSError] with nothing written when it
    is not. *)
Theorem histogram_saves_into_existing_directory (x : list Q)
    (dataset metric method : string) (depth : Z) (w : world) :
  let directory := "../data/" ++ dataset ++ "/plots/" ++ metric ++ "/" ++ method in
  let filepath := directory ++ "/" ++ str_of_int depth ++ "-histogram.png" in
  let fig := [NewFigure None None; Hist (hist_counts x 100); GridY;
              XLabel "Anomalousness"; YLabel "Counts";
              YLimTop (ylim_top (counts_max (hist_counts x 100)))] in
  method <> "" -> ends_with_slash method = false ->
  image_file filepath = Ok filepath ->
  fs w !! filepath <> Some Dir ->
  histogram x dataset metric method depth true w
  = match fs w !! directory with
    | Some Dir => (Ok tt, {| fs := <[filepath := File (render fig None)]> (fs w);
                             trace := (trace w ++ [Savefig filepath])%list |})
    | _ => (Raise OSError, {| fs := fs w; trace := (trace w ++ [Savefig filepath])%list |})
    end.
Proof.
  intros directory filepath fig Hm Hend Himg Hnd.
  assert (Hpath : "../data/" ++ dataset ++ "/plots/" ++ metric ++ "/" ++ method
                    ++ "/" ++ str_of_int depth ++ "-histogram.png" = filepath).
  { unfold filepath, directory. by rewrite !string_app_assoc. }
  assert (Hdir : dirname filepath = directory).
  { apply dirname_join.
    - unfold directory. intros H. apply (f_equal String.length) in H. discriminate.
    - unfold directory. rewrite <- !string_app_assoc.
      by rewrite ends_with_slash_app.
    - rewrite list_ascii_app. intros [H|H]%elem_of_app.
      + by apply str_of_int_no_slash in H.
      + revert H. apply (bool_decide_unpack _). by vm_compute. }
  unfold Figures.histogram. rewrite Hpath.
  rewrite (savefig_written filepath _ None w Himg).
  unfold parent_is_dir. rewrite Hdir.
  rewrite bool_decide_eq_false_2
    by (unfold directory; intros H; apply (f_equal String.length) in H; discriminate).
  simpl. destruct (fs w !! filepath) as [[|?]|]; [done| |];
    by destruct (fs w !! directory) as [[|?]|].
Qed.

(** *** Scatter plots *)

Lemma np_min_Ok (a : ndarray) (m : Q) :
  np_min a = Ok m -> flat a <> [] /\ Forall (fun v => (m <= v)%Q) (flat a).
Proof.
  unfold np_min. destruct (flat a) as [|x xs]; [discriminate|].
  intros H. injection H as <-. split; [done|].
  destruct (foldl_qmin_le x xs). by constructor.
Qed.

Lemma np_max_Ok (a : ndarray) (m : Q) :
  np_max a = Ok m -> flat a <> [] /\ Forall (fun v => (v <= m)%Q) (flat a).
Proof.
  unfold np_max. destruct (flat a) as [|x xs]; [discriminate|].
  intros H. injection H as <-. split; [done|].
  destruct (foldl_qmax_ge x xs). by constructor.
Qed.

Lemma Forall_between (l : list Q) (lo hi : Q) :
  Forall (fun v => (lo <= v)%Q) l -> Forall (fun v => (v <= hi)%Q) l ->
  Forall (fun v => (lo <= v /\ v <= hi)%Q) l.
Proof.
  rewrite !Forall_forall. intros H1 H2 v Hv. split; [by apply H1|by apply H2].
Qed.

Lemma savefig_Ok (fname : string) (fig : figure) (pad : option Q) (w w' : world) :
  savefig fname fig pad w = (Ok tt, w') ->
  exists path,
    image_file fname = Ok path /\
    parent_is_dir w path = true /\
    fs w !! path <> Some Dir /\
    w' = {| fs := <[path := File (render fig pad)]> (fs w);
            trace := (trace w ++ [Savefig fname])%list |}.
Proof.
  unfold Figures.savefig, bind, log, lift, put_node. simpl.
  destruct (image_file fname) as [path|]; [|discriminate].
  destruct (parent_is_dir _ path) eqn:Hp; [|discriminate].
  unfold parent_is_dir in Hp. simpl in *.
  destruct (fs w !! path) as [[|?]|] eqn:Hf; [discriminate| |];
    intros H; injection H as <-; exists path; unfold parent_is_dir; by rewrite Hf.
Qed.

(** X17: a scatter plot of two columns that completes has saved, under the
    name it was given, a figure whose axis limits enclose every point,
    and has shown it afterwards; there was at least one point. *)
Theorem scatter_limits_enclose_points (data : ndarray) (labels : list Z) (name : string)
    (w w' : world) :
  shape1 data = Ok 2%nat ->
  scatter data labels name w = (Ok tt, w') ->
  exists (x y : ndarray) (x0 x1 y0 y1 : Q) (path : string),
    column data 0 = Ok x /\ column data 1 = Ok y /\
    flat x <> [] /\
    Forall (fun v => (x0 <= v /\ v <= x1)%Q) (flat x) /\
    Forall (fun v => (y0 <= v /\ v <= y1)%Q) (flat y) /\
    image_file name = Ok path /\
    fs w' = <[path := File (render [NewFigure (Some (6, 6)%Q) (Some 300%Z);
                                    AddSubplot false;
                                    Scatter [flat x; flat y] (inject_Z <$> labels) (Uniform 5);
                                    XLim x0 x1; YLim y0 y1]
                                   (Some (1 # 4)%Q))]> (fs w) /\
    trace w' = (trace w ++ [Savefig name; PltShow])%list.
Proof.
  intros Hcols H. unfold Figures.scatter in H.
  apply bind_Ok_inv in H as (cols & w0 & Hc & H).
  apply lift_Ok_inv in Hc as [Hc ->]. rewrite Hcols in Hc. injection Hc as <-.
  apply bind_Ok_inv in H as (fig & w1 & Hfig & H).
  simpl in Hfig.
  apply bind_Ok_inv in Hfig as (x & w2 & Hx & Hfig). apply lift_Ok_inv in Hx as [Hx ->].
  apply bind_Ok_inv in Hfig as (y & w2 & Hy & Hfig). apply lift_Ok_inv in Hy as [Hy ->].
  apply bind_Ok_inv in Hfig as ([] & w2 & Hacc & Hfig). apply lift_Ok_inv in Hacc as [Hacc ->].
  apply bind_Ok_inv in Hfig as (x0 & w2 & Hx0 & Hfig). apply lift_Ok_inv in Hx0 as [Hx0 ->].
  apply bind_Ok_inv in Hfig as (x1 & w2 & Hx1 & Hfig). apply lift_Ok_inv in Hx1 as [Hx1 ->].
  apply bind_Ok_inv in Hfig as (y0 & w2 & Hy0 & Hfig). apply lift_Ok_inv in Hy0 as [Hy0 ->].
  apply bind_Ok_inv in Hfig as (y1 & w2 & Hy1 & Hfig). apply lift_Ok_inv in Hy1 as [Hy1 ->].
  apply ret_Ok_inv in Hfig as [-> ->].
  apply bind_Ok_inv in H as ([] & w2 & Hsave & H).
  apply savefig_Ok in Hsave as (path & Himg & _ & _ & ->).
  unfold log in H. injection H as <-. simpl.
  apply np_min_Ok in Hx0 as [Hne Hx0]. apply np_max_Ok in Hx1 as [_ Hx1].
  apply np_min_Ok in Hy0 as [_ Hy0]. apply np_max_Ok in Hy1 as [_ Hy1].
  exists x, y, x0, x1, y0, y1, path.
  split; [done|]. split; [done|]. split; [done|].
  split; [by apply Forall_between|]. split; [by apply Forall_between|].
  split; [done|]. split; [done|]. by rewrite <- app_assoc.
Qed.

Lemma column_no_rows (data : ndarray) (m : nat) (rest : list nat) (j : nat) :
  shape data = 0%nat :: m :: rest -> (j < m)%nat ->
  exists a, column data j = Ok a /\ flat a = [].
Proof.
  intros Hs Hj. unfold column. rewrite Hs.
  destruct (Nat.ltb_spec j m); [|lia]. eexists. split; [done|]. done.
Qed.

(** X18: for data without rows, in two or three columns, [scatter] raises
    before it saves or shows anything: the points may be accepted, but
    there is no least coordinate to put the axis limits at. *)
Theorem scatter_without_points_saves_nothing (data : ndarray) (labels : list Z)
    (name : string) (w : world) (m : nat) (rest : list nat) :
  shape data = 0%nat :: m :: rest -> m = 2%nat \/ m = 3%nat ->
  exists e,
    scatter data labels name w = (Raise e, w) /\
    (scatter_accepts (replicate m []) (inject_Z <$> labels) (Uniform 5) = Ok tt ->
     e = ValueError).
Proof.
  intros Hs Hm. unfold Figures.scatter, shape1. rewrite Hs.
  unfold bind at 1, lift at 1.
  destruct Hm as [-> | ->]; simpl Nat.eqb; cbv iota.
  - destruct (column_no_rows data 2 rest 0 Hs ltac:(lia)) as (x & Hx & Hfx).
    destruct (column_no_rows data 2 rest 1 Hs ltac:(lia)) as (y & Hy & Hfy).
    unfold bind, lift. rewrite Hx, Hy, Hfx, Hfy. simpl.
    destruct (scatter_accepts _ _ _) as [[]|e].
    + exists ValueError. unfold np_min. by rewrite Hfx.
    + exists e. split; [done|]. discriminate.
  - destruct (column_no_rows data 3 rest 0 Hs ltac:(lia)) as (x & Hx & Hfx).
    destruct (column_no_rows data 3 rest 1 Hs ltac:(lia)) as (y & Hy & Hfy).
    destruct (column_no_rows data 3 rest 2 Hs ltac:(lia)) as (z & Hz & Hfz).
    unfold bind, lift. rewrite Hx, Hy, Hz, Hfx, Hfy, Hfz. simpl.
    destruct (scatter_accepts _ _ _) as [[]|e].
    + exists ValueError. unfold np_min. by rewrite Hfx.
    + exists e. split; [done|]. discriminate.
Qed.

(** X19: data with fewer than two axes has no columns: [scatter],
    [plot_2d] and [plot_3d] raise [IndexError] on it and leave the world
    as it was. *)
Theorem plots_need_columns (data : ndarray) (labels : list Z) (labels' : ndarray)
    (name title : string) (figsize : Q * Q) (dpi : Z) (w : world) :
  (length (shape data) < 2)%nat ->
  scatter data labels name w = (Raise IndexError, w) /\
  plot_2d data labels' title name figsize dpi w = (Raise IndexError, w) /\
  plot_3d data labels' title name figsize dpi w = (Raise IndexError, w).
Proof.
  intros Hlen.
  assert (H1 : shape1 data = Raise IndexError).
  { unfold shape1. destruct (shape data) as [|? [|? ?]]; simpl in *; [done|done|lia]. }
  assert (Hc : column data 0 = Raise IndexError).
  { unfold column. destruct (shape data) as [|? [|? ?]]; simpl in *; [done|done|lia]. }
  unfold Figures.scatter, Figures.plot_2d, Figures.plot_3d, bind, lift.
  by rewrite H1, Hc.
Qed.

(** *** The views of [plot_3d] *)

Local Abbreviation view folder := (fun azimuth : Z => folder ++ format_03d azimuth ++ ".png").

Lemma view_not_empty (folder : string) (azimuth : Z) : view folder azimuth <> "".
Proof.
  intros H. apply (f_equal String.length) in H.
  rewrite !string_app_length in H. simpl in H. lia.
Qed.

Lemma save_views_Ok (folder : string) (azimuths : list Z) (fig : figure) (w : world) :
  NoDup (view folder <$> azimuths) ->
  (forall a, a ∈ azimuths ->
     image_file (view folder a) = Ok (view folder a) /\
     parent_is_dir w (view folder a) = true /\
     fs w !! view folder a <> Some Dir) ->
  exists w',
    save_views render image_file folder fig azimuths w = (Ok tt, w') /\
    trace w' = (trace w ++ (Savefig <$> (view folder <$> azimuths)))%list /\
    (forall p, p ∉ view folder <$> azimuths -> fs w' !! p = fs w !! p) /\
    (forall i a, azimuths !! i = Some a ->
       fs w' !! view folder a
       = Some (File (render (fig ++ (ViewInit 10 <$> take (S i) azimuths))%list (Some 0%Q)))).
Proof.
  revert fig w. induction azimuths as [|a azs IH]; intros fig w Hnd Hok.
  - exists w. split; [done|]. split; [by rewrite app_nil_r|]. split; [done|].
    intros i a Hi. by rewrite lookup_nil in Hi.
  - rewrite fmap_cons in Hnd. apply NoDup_cons in Hnd as [Hna Hnd].
    destruct (Hok a ltac:(left)) as (Himg & Hpar & Hdir).
    set (w1 := {| fs := <[view folder a := File (render (fig ++ [ViewInit 10 a])%list (Some 0%Q))]>
                          (fs w);
                  trace := (trace w ++ [Savefig (view folder a)])%list |}).
    assert (Hstep : savefig (view folder a) (fig ++ [ViewInit 10 a])%list (Some 0%Q) w = (Ok tt, w1)).
    { rewrite (savefig_written _ _ _ _ Himg), Hpar.
      by destruct (fs w !! view folder a) as [[|?]|]. }
    destruct (IH (fig ++ [ViewInit 10 a])%list w1 Hnd) as (w' & Hrun & Htr & Hfs & Hfiles).
    { intros b Hb. destruct (Hok b ltac:(by right)) as (Himg' & Hpar' & Hdir').
      assert (Hne : view folder b <> view folder a).
      { intros Heq. apply Hna. rewrite <- Heq.
        exact (list_elem_of_fmap_2 (view folder) azs b Hb). }
      split; [done|]. split.
      - unfold parent_is_dir in *. simpl.
        destruct (decide (dirname (view folder b) = view folder a)) as [Heq|Hneq].
        + rewrite Heq in Hpar'.
          rewrite bool_decide_eq_false_2 in Hpar' by apply view_not_empty.
          simpl in Hpar'. destruct (fs w !! view folder a) as [[|?]|]; done.
        + by rewrite lookup_insert_ne.
      - simpl. by rewrite lookup_insert_ne. }
    exists w'. split.
    { simpl. unfold bind. fold (view folder a). by rewrite Hstep. }
    split; [rewrite Htr; simpl; by rewrite <- app_assoc|].
    split.
    { intros p Hp. rewrite fmap_cons in Hp. apply not_elem_of_cons in Hp as [Hpa Hp].
      rewrite (Hfs p Hp). simpl. by rewrite lookup_insert_ne. }
    intros i b Hi. destruct i as [|i]; simpl in Hi.
    + injection Hi as <-. rewrite (Hfs _ Hna). simpl.
      by rewrite lookup_insert_eq.
    + rewrite (Hfiles i b Hi), <- app_assoc. done.
Qed.

(** X20: when the points are accepted and every view can be written,
    [plot_3d] saves 360 figures under 360 different names, the folder
    followed by the azimuth in three digits and [.png], in the order of
    the azimuths; the figure of an azimuth has been turned through all
    the views up to it, and no other path is touched. *)
Theorem plot_3d_saves_every_view (data labels : ndarray) (title folder : string)
    (figsize : Q * Q) (dpi : Z) (w : world) (x y z : ndarray) (c : list Q) :
  let s := PerPoint ((fun l => 10 * l + (1 # 10))%Q <$> flat labels) in
  let fig := [NewFigure (Some figsize) (Some dpi); AddSubplot true;
              Scatter [flat x; flat y; flat z] c s; Title title;
              AxisOff; SubplotsAdjust; Margins] in
  column data 0 = Ok x -> column data 1 = Ok y -> column data 2 = Ok z ->
  floats_of labels = Ok c ->
  scatter_accepts [flat x; flat y; flat z] c s = Ok tt ->
  (forall a, (0 <= a < 360)%Z ->
     image_file (view folder a) = Ok (view folder a) /\
     parent_is_dir w (view folder a) = true /\
     fs w !! view folder a <> Some Dir) ->
  exists w',
    plot_3d data labels title folder figsize dpi w = (Ok tt, w') /\
    trace w' = (trace w ++ (Savefig <$> (view folder <$> seqZ 0 360)))%list /\
    NoDup (view folder <$> seqZ 0 360) /\
    (forall a, (0 <= a < 360)%Z ->
       fs w' !! view folder a
       = Some (File (render (fig ++ (ViewInit 10 <$> seqZ 0 (a + 1)))%list (Some 0%Q)))) /\
    (forall p, p ∉ view folder <$> seqZ 0 360 -> fs w' !! p = fs w !! p).
Proof.
  intros s fig Hx Hy Hz Hc Hacc Hok.
  pose proof (view_names_distinct folder) as Hnd.
  destruct (save_views_Ok folder (seqZ 0 360) fig w Hnd) as (w' & Hrun & Htr & Hfs & Hfiles).
  { intros a Ha. apply Hok. apply elem_of_seqZ in Ha. lia. }
  exists w'. split.
  { unfold s in Hacc. unfold Figures.plot_3d, bind, lift.
    rewrite Hx, Hy, Hz, Hc, Hacc. exact Hrun. }
  split; [done|]. split; [done|]. split; [|done].
  intros a Ha.
  rewrite (Hfiles (Z.to_nat a) a).
  - assert (Htake : take (S (Z.to_nat a)) (seqZ 0 360) = seqZ 0 (a + 1)).
    { replace 360%Z with ((a + 1) + (360 - (a + 1)))%Z by lia.
      rewrite seqZ_app by lia. apply take_app_length'. rewrite length_seqZ. lia. }
    by rewrite Htake.
  - rewrite lookup_seqZ. split; lia.
Qed.

(** X21: [plot_2d] on a vector of labels that completes has saved one
    figure under the name it was given and shown none: the points are the
    first two columns of the data, each label is the colour of its point,
    and ten times the label plus one is its size. *)
Theorem plot_2d_colours_are_labels (data labels : ndarray) (title filename : string)
    (figsize : Q * Q) (dpi : Z) (w w' : world) (n : nat) :
  shape labels = [n] -> wf labels = true ->
  plot_2d data labels title filename figsize dpi w = (Ok tt, w') ->
  exists (x y : ndarray) (path : string),
    column data 0 = Ok x /\ column data 1 = Ok y /\
    image_file filename = Ok path /\
    fs w' = <[path := File (render [NewFigure (Some figsize) (Some dpi); AddSubplot false;
                                    Scatter [flat x; flat y] (flat labels)
                                            (PerPoint ((fun l => 10 * l + 1)%Q <$> flat labels));
                                    Title title]
                                   (Some (1 # 4)%Q))]> (fs w) /\
    trace w' = (trace w ++ [Savefig filename])%list.
Proof.
  intros Hs Hwf H. unfold Figures.plot_2d in H.
  apply bind_Ok_inv in H as (x & w0 & Hx & H). apply lift_Ok_inv in Hx as [Hx ->].
  apply bind_Ok_inv in H as (y & w0 & Hy & H). apply lift_Ok_inv in Hy as [Hy ->].
  apply bind_Ok_inv in H as (c & w0 & Hc & H). apply lift_Ok_inv in Hc as [Hc ->].
  rewrite (floats_of_vector labels n Hs Hwf) in Hc. injection Hc as <-.
  apply bind_Ok_inv in H as ([] & w0 & Hacc & H). apply lift_Ok_inv in Hacc as [Hacc ->].
  apply savefig_Ok in H as (path & Himg & _ & _ & ->).
  by exists x, y, path.
Qed.

End Drawing.

Lemma histogram_saves_into_existing_directory_witness :
  Figures.histogram sketch as_named [0.1; 0.2; 0.9]%Q "wine" "euclidean" "m" 5 true
    histogram_world
  = (Ok tt,
     {| fs := <[ "../data/wine/plots/euclidean/m/5-histogram.png" := File (replicate 6 x2a) ]>
                (fs histogram_world);
        trace := [Savefig "../data/wine/plots/euclidean/m/5-histogram.png"] |}).
Proof.
  apply (histogram_saves_into_existing_directory sketch as_named [0.1; 0.2; 0.9]%Q
           "wine" "euclidean" "m" 5 histogram_world); by vm_compute.
Defined.

Lemma scatter_limits_enclose_points_witness :
  exists w' : world,
    Figures.scatter sketch accept_all as_named sample_X [0; 1; 0]%Z "scatter.png" empty_plots
      = (Ok tt, w') /\
    exists (x y : ndarray) (x0 x1 y0 y1 : Q) (path : string),
      column sample_X 0 = Ok x /\ column sample_X 1 = Ok y /\
      flat x <> [] /\
      Forall (fun v => (x0 <= v /\ v <= x1)%Q) (flat x) /\
      Forall (fun v => (y0 <= v /\ v <= y1)%Q) (flat y) /\
      as_named "scatter.png" = Ok path /\
      fs w' = <[path := File (sketch [NewFigure (Some (6, 6)%Q) (Some 300%Z);
                                      AddSubplot false;
                                      Scatter [flat x; flat y] (inject_Z <$> [0; 1; 0]%Z)
                                              (Uniform 5);
                                      XLim x0 x1; YLim y0 y1]
                                     (Some (1 # 4)%Q))]> (fs empty_plots) /\
      trace w' = (trace empty_plots ++ [Savefig "scatter.png"; PltShow])%list.
Proof.
  eexists. split; [vm_compute; reflexivity|].
  eapply (scatter_limits_enclose_points sketch accept_all as_named sample_X [0; 1; 0]%Z
            "scatter.png" empty_plots); by vm_compute.
Defined.

Lemma scatter_without_points_saves_nothing_witness :
  exists e,
    Figures.scatter sketch accept_all as_named (mk_ndarray float64 [0; 2]%nat [])
      [] "scatter.png" empty_plots = (Raise e, empty_plots) /\
    (accept_all (replicate 2 []) (inject_Z <$> []) (Uniform 5) = Ok tt -> e = ValueError).
Proof.
  apply (scatter_without_points_saves_nothing sketch accept_all as_named
           (mk_ndarray float64 [0; 2]%nat []) [] "scatter.png" empty_plots 2 []);
    [done|by left].
Defined.

Lemma plots_need_columns_witness :
  Figures.scatter sketch accept_all as_named label_vector [0; 1; 0]%Z "p.png" empty_plots
    = (Raise IndexError, empty_plots) /\
  Figures.plot_2d sketch accept_all as_named label_vector label_vector "t" "p.png"
    (8, 8)%Q 128 empty_plots = (Raise IndexError, empty_plots) /\
  Figures.plot_3d sketch accept_all as_named label_vector label_vector "t" "p.png"
    (8, 8)%Q 128 empty_plots = (Raise IndexError, empty_plots).
Proof.
  apply (plots_need_columns sketch accept_all as_named label_vector [0; 1; 0]%Z
           label_vector "p.png" "t" (8, 8)%Q 128 empty_plots).
  simpl. lia.
Defined.

Lemma plot_3d_saves_every_view_witness :
  let view := fun azimuth : Z => "v" ++ format_03d azimuth ++ ".png" in
  let s := PerPoint ((fun l => 10 * l + (1 # 10))%Q <$> flat one_label) in
  let fig := [NewFigure (Some (8, 8)%Q) (Some 128%Z); AddSubplot true;
              Scatter [[1%Q]; [2%Q]; [3%Q]] [1%Q] s; Title "t";
              AxisOff; SubplotsAdjust; Margins] in
  exists w',
    Figures.plot_3d sketch accept_all as_named one_point one_label "t" "v" (8, 8)%Q 128
      empty_plots = (Ok tt, w') /\
    trace w' = (trace empty_plots ++ (Savefig <$> (view <$> seqZ 0 360)))%list /\
    NoDup (view <$> seqZ 0 360) /\
    (forall a, (0 <= a < 360)%Z ->
       fs w' !! view a
       = Some (File (sketch (fig ++ (ViewInit 10 <$> seqZ 0 (a + 1)))%list (Some 0%Q)))) /\
    (forall p, p ∉ view <$> seqZ 0 360 -> fs w' !! p = fs empty_plots !! p).
Proof.
  apply (plot_3d_saves_every_view sketch accept_all as_named one_point one_label "t" "v"
           (8, 8)%Q 128 empty_plots
           (mk_ndarray float64 [1]%nat [1%Q]) (mk_ndarray float64 [1]%nat [2%Q])
           (mk_ndarray float64 [1]%nat [3%Q]) [1%Q]); try done.
  assert (H : Forall (fun a => parent_is_dir empty_plots ("v" ++ format_03d a ++ ".png") = true)
                (seqZ 0 360))
    by (apply (bool_decide_unpack _); by vm_compute).
  rewrite Forall_seqZ in H. intros a Ha. split; [done|]. split; [apply H; lia|done].
Defined.

Lemma plot_2d_colours_are_labels_witness :
  exists w' : world,
    Figures.plot_2d sketch accept_all as_named sample_X label_vector "t" "p.png"
      (8, 8)%Q 128 empty_plots = (Ok tt, w') /\
    exists (x y : ndarray) (path : string),
      column sample_X 0 = Ok x /\ column sample_X 1 = Ok y /\
      as_named "p.png" = Ok path /\
      fs w' = <[path := File (sketch [NewFigure (Some (8, 8)%Q) (Some 128%Z); AddSubplot false;
                                      Scatter [flat x; flat y] (flat label_vector)
                                              (PerPoint ((fun l => 10 * l + 1)%Q
                                                           <$> flat label_vector));
                                      Title "t"]
                                     (Some (1 # 4)%Q))]> (fs empty_plots) /\
      trace w' = (trace empty_plots ++ [Savefig "p.png"])%list.
Proof.
  eexists. split; [vm_compute; reflexivity|].
  eapply (plot_2d_colours_are_labels sketch accept_all as_named sample_X label_vector
            "t" "p.png" (8, 8)%Q 128 empty_plots _ 3); by vm_compute.
Defined.

End FiguresProofs.
